(** * Spleeter Web: the Celery task layer ([api/tasks.py])

    A shallow embedding of the task handlers [create_static_mix],
    [create_dynamic_mix] and [fetch_youtube_audio] and of their helpers
    ([get_separator], [exists_all_parts], [rename_all_parts],
    [save_to_local_storage], [save_to_ext_storage]).

    The handlers are sequential glue around a database, a file system and
    opaque separators and downloaders.  They are embedded in a small
    state-and-exception monad:
    - the state is the in-memory model instance the handler works on (a
      Python object that the [try] body and the [except] clauses share)
      together with a world made of the database tables, the file system,
      standard output and a log of the calls made;
    - a computation returns a value or raises a Python exception, and
      [try_except] selects the first [except] clause whose class the
      exception is an instance of.

    The separators, the downloader, [slugify] and the model methods are not
    defined in this module; they are taken as parameters. *)

From Stdlib Require Import ZArith Ascii String.
From stdpp Require Import gmap strings list fin_maps.

Open Scope string_scope.

(** ** Python exceptions *)

(** The exception classes that reach the handlers, with the builtin
    hierarchy: [FileNotFoundError < OSError < Exception < BaseException],
    [KeyError < Exception], billiard's [SoftTimeLimitExceeded < Exception] and
    Django's [DoesNotExist < Exception].  [KeyboardInterrupt] stands for the
    classes that derive from [BaseException] only. *)
Inductive ExcClass :=
| BaseException
| KeyboardInterrupt
| Exception
| OSError
| FileNotFoundError
| KeyError
| SoftTimeLimitExceeded
| DoesNotExist.

Global Instance ExcClass_eq_dec : EqDecision ExcClass.
Proof. solve_decision. Defined.

(** The proper ancestors of a class, nearest first. *)
Definition bases (c : ExcClass) : list ExcClass :=
  match c with
  | BaseException => []
  | KeyboardInterrupt => [BaseException]
  | Exception => [BaseException]
  | OSError => [Exception; BaseException]
  | FileNotFoundError => [OSError; Exception; BaseException]
  | KeyError => [Exception; BaseException]
  | SoftTimeLimitExceeded => [Exception; BaseException]
  | DoesNotExist => [Exception; BaseException]
  end.

Definition class_eqb (c d : ExcClass) : bool :=
  match c, d with
  | BaseException, BaseException
  | KeyboardInterrupt, KeyboardInterrupt
  | Exception, Exception
  | OSError, OSError
  | FileNotFoundError, FileNotFoundError
  | KeyError, KeyError
  | SoftTimeLimitExceeded, SoftTimeLimitExceeded
  | DoesNotExist, DoesNotExist => true
  | _, _ => false
  end.

Definition issubclass (c d : ExcClass) : bool :=
  class_eqb c d || existsb (class_eqb d) (bases c).

(** An exception object: its class and what [str(error)] gives. *)
Record Exn := mkExn { exn_class : ExcClass; exn_str : string }.

Global Instance Exn_eq_dec : EqDecision Exn.
Proof. solve_decision. Defined.

Definition isinstance (e : Exn) (c : ExcClass) : bool :=
  issubclass (exn_class e) c.

Inductive Result (A : Type) :=
| Ok (a : A)
| Raise (e : Exn).
Arguments Ok {A} a.
Arguments Raise {A} e.

(** ** [os.path.join] *)

Definition startswith_sep (s : string) : bool :=
  match s with
  | String c _ => bool_decide (c = "/"%char)
  | EmptyString => false
  end.

Fixpoint endswith_sep (s : string) : bool :=
  match s with
  | EmptyString => false
  | String c EmptyString => bool_decide (c = "/"%char)
  | String _ s' => endswith_sep s'
  end.

(** One round of the loop of [posixpath.join]: an absolute component
    restarts the path, otherwise it is appended, with a separator unless the
    path is empty or already ends with one. *)
Definition join_step (path b : string) : string :=
  if startswith_sep b then b
  else if bool_decide (path = "") || endswith_sep path then path ++ b
  else path ++ "/" ++ b.

Definition os_path_join (a : string) (p : list string) : string :=
  fold_left join_step p a.

(** ** The file system *)

Inductive Node :=
| File (content : string)
| Dir.

Global Instance Node_eq_dec : EqDecision Node.
Proof. solve_decision. Defined.

(** Paths are compared as strings.  [under d k] says that [k] lies strictly
    below the directory [d]. *)
Definition under (d k : string) : bool := String.prefix (d ++ "/") k.

Definition has_children (d : string) (fs : gmap string Node) : bool :=
  existsb (λ kv, under d kv.1) (map_to_list fs).

(** The proper ancestors of a path: what is left of each separator. *)
Fixpoint ancestors_from (acc s : string) : list string :=
  match s with
  | EmptyString => []
  | String c s' =>
      (if bool_decide (c = "/"%char) && negb (bool_decide (acc = ""))
       then [acc] else [])
      ++ ancestors_from (acc ++ String c "") s'
  end.

Definition ancestors (p : string) : list string := ancestors_from "" p.

(** ** Model instances and the database *)

(** Modelled from the spec: the [TaskStatus] enumeration of [api/models.py]
    (not part of this module): the status values a job row goes through,
    "mark in-progress ... mark done or error", and the status of a job that
    has not been picked up yet. *)
Inductive TaskStatus :=
| QUEUED
| IN_PROGRESS
| DONE
| ERROR.

Global Instance TaskStatus_eq_dec : EqDecision TaskStatus.
Proof. solve_decision. Defined.

(** The value of a Django file field: the name it refers to and, when a
    [ContentFile] has been assigned to it, the bytes it carries (read from
    the local file and handed to the storage backend). *)
Record FieldFile := mkFieldFile {
  ff_name : string;
  ff_content : option string
}.

Global Instance FieldFile_eq_dec : EqDecision FieldFile.
Proof. solve_decision. Defined.

(** [ContentFile(raw_file.read())] followed by [content_file.name = name]. *)
Definition ContentFile (content name : string) : FieldFile :=
  {| ff_name := name; ff_content := Some content |}.

(** The assignment [field.name = name]. *)
Definition set_name (name : string) (f : FieldFile) : FieldFile :=
  {| ff_name := name; ff_content := ff_content f |}.

(** Modelled from the spec: the framework-managed records of
    [api/models.py] (not part of this module), "a static-mix job, a
    dynamic-mix job, a source file, a download task", with "plain
    status/error strings and file references" and the fields the handlers
    read. *)
Record StaticMix := mkStaticMix {
  sm_status : TaskStatus;
  sm_error : string;
  sm_file : FieldFile;
  sm_separator : string;
  sm_random_shifts : Z;
  sm_vocals : bool;
  sm_drums : bool;
  sm_bass : bool;
  sm_other : bool;
  sm_source : string
}.

Record DynamicMix := mkDynamicMix {
  dm_status : TaskStatus;
  dm_error : string;
  dm_vocals_file : FieldFile;
  dm_other_file : FieldFile;
  dm_bass_file : FieldFile;
  dm_drums_file : FieldFile;
  dm_separator : string;
  dm_random_shifts : Z;
  dm_source : string
}.

Record SourceFile := mkSourceFile {
  sf_file : FieldFile
}.

Record YTAudioDownloadTask := mkYTAudioDownloadTask {
  yt_status : TaskStatus;
  yt_error : string
}.

Global Instance StaticMix_eq_dec : EqDecision StaticMix.
Proof. solve_decision. Defined.
Global Instance DynamicMix_eq_dec : EqDecision DynamicMix.
Proof. solve_decision. Defined.
Global Instance SourceFile_eq_dec : EqDecision SourceFile.
Proof. solve_decision. Defined.
Global Instance YTAudioDownloadTask_eq_dec : EqDecision YTAudioDownloadTask.
Proof. solve_decision. Defined.

(** One table per model, keyed by the row id. *)
Record Database := mkDatabase {
  static_mixes : gmap string StaticMix;
  dynamic_mixes : gmap string DynamicMix;
  source_files : gmap string SourceFile;
  yt_tasks : gmap string YTAudioDownloadTask
}.

(** ** The log of calls *)

Inductive Table := TStaticMix | TDynamicMix | TSourceFile | TYTAudioDownloadTask.

Global Instance Table_eq_dec : EqDecision Table.
Proof. solve_decision. Defined.

(** What a handler does, in the order it does it: attribute assignments to
    the status and to the file fields of an instance, calls to [save()], and calls to the file
    system, the separator and the downloader.  A call is logged when it is
    made, whether it returns or raises. *)
Inductive Event :=
| EvSetStatus (t : Table) (id : string) (s : TaskStatus)
| EvSetFile (t : Table) (id field : string) (f : FieldFile)
| EvSave (t : Table) (id : string) (s : option TaskStatus)
| EvMkdir (p : string)
| EvSeparate (p : string)
| EvDownload (link p : string)
| EvExists (p : string) (r : bool)
| EvRead (p : string)
| EvRemove (p : string)
| EvRmdir (p : string)
| EvRename (old new : string)
| EvRmtree (p : string).

Global Instance Event_eq_dec : EqDecision Event.
Proof. solve_decision. Defined.

Record World := mkWorld {
  db : Database;
  fs : gmap string Node;
  stdout : list string;
  trace : list Event
}.

Definition with_db (d : Database) (w : World) : World :=
  {| db := d; fs := fs w; stdout := stdout w; trace := trace w |}.
Definition with_fs (f : gmap string Node) (w : World) : World :=
  {| db := db w; fs := f; stdout := stdout w; trace := trace w |}.
Definition with_stdout (o : list string) (w : World) : World :=
  {| db := db w; fs := fs w; stdout := o; trace := trace w |}.
Definition log (ev : Event) (w : World) : World :=
  {| db := db w; fs := fs w; stdout := stdout w; trace := trace w ++ [ev] |}.

(** ** The monad of handlers *)

(** [L] is the type of the model instances the handler holds. *)
Definition Py (L A : Type) : Type := L * World → Result A * (L * World).

Definition ret {L A} (a : A) : Py L A := λ s, (Ok a, s).

Definition raise {L A} (e : Exn) : Py L A := λ s, (Raise e, s).

Definition bind {L A B} (m : Py L A) (k : A → Py L B) : Py L B :=
  λ s, match m s with
       | (Ok a, s') => k a s'
       | (Raise e, s') => (Raise e, s')
       end.

Notation "'let*' x ':=' m 'in' k" := (bind m (λ x, k))
  (at level 10, x name, m at level 100, k at level 200,
   format "'[v' 'let*'  x  ':='  m  'in' '/' k ']'").

(** An [except] clause: the class it names and its body, which is given the
    exception ([as error]). *)
Definition Clause (L A : Type) : Type := ExcClass * (Exn → Py L A).

Fixpoint select_clause {L A} (clauses : list (Clause L A)) (e : Exn)
  : option (Py L A) :=
  match clauses with
  | [] => None
  | (c, h) :: rest => if isinstance e c then Some (h e) else select_clause rest e
  end.

(** [try: body except c1 as error: h1 ... ]: the clauses are tried in order,
    and an exception no clause matches propagates. *)
Definition try_except {L A} (body : Py L A) (clauses : list (Clause L A))
  : Py L A :=
  λ s, match body s with
       | (Ok a, s') => (Ok a, s')
       | (Raise e, s') =>
           match select_clause clauses e with
           | Some h => h s'
           | None => (Raise e, s')
           end
       end.

Definition get_local {L} : Py L L := λ s, (Ok s.1, s).
Definition modify_local {L} (f : L → L) : Py L unit := λ s, (Ok tt, (f s.1, s.2)).
Definition get_world {L} : Py L World := λ s, (Ok s.2, s).
Definition modify_world {L} (f : World → World) : Py L unit :=
  λ s, (Ok tt, (s.1, f s.2)).

Definition emit {L} (ev : Event) : Py L unit := modify_world (log ev).

Definition print {L} (line : string) : Py L unit :=
  modify_world (λ w, with_stdout (stdout w ++ [line]) w).

Definition run {L A} (m : Py L A) (l : L) (w : World) : Result A * World :=
  ((m (l, w)).1, (m (l, w)).2.2).

(** ** File-system calls *)

Definition enoent (p : string) : Exn :=
  mkExn FileNotFoundError ("[Errno 2] No such file or directory: '" ++ p ++ "'").
Definition eisdir (p : string) : Exn :=
  mkExn OSError ("[Errno 21] Is a directory: '" ++ p ++ "'").
Definition enotdir (p : string) : Exn :=
  mkExn OSError ("[Errno 20] Not a directory: '" ++ p ++ "'").
Definition eexist (p : string) : Exn :=
  mkExn OSError ("[Errno 17] File exists: '" ++ p ++ "'").
Definition enotempty (p : string) : Exn :=
  mkExn OSError ("[Errno 39] Directory not empty: '" ++ p ++ "'").

(** [os.path.exists(p)]: never raises. *)
Definition os_path_exists {L} (p : string) : Py L bool :=
  let* w := get_world in
  let r := bool_decide (is_Some (fs w !! p)) in
  let* _ := emit (EvExists p r) in
  ret r.

(** [open(p, 'rb').read()]. *)
Definition open_read {L} (p : string) : Py L string :=
  let* _ := emit (EvRead p) in
  let* w := get_world in
  match fs w !! p with
  | Some (File content) => ret content
  | Some Dir => raise (eisdir p)
  | None => raise (enoent p)
  end.

(** [os.remove(p)]. *)
Definition os_remove {L} (p : string) : Py L unit :=
  let* _ := emit (EvRemove p) in
  let* w := get_world in
  match fs w !! p with
  | Some (File _) => modify_world (with_fs (delete p (fs w)))
  | Some Dir => raise (eisdir p)
  | None => raise (enoent p)
  end.

(** [os.rmdir(p)]: only an empty directory is removed. *)
Definition os_rmdir {L} (p : string) : Py L unit :=
  let* _ := emit (EvRmdir p) in
  let* w := get_world in
  match fs w !! p with
  | Some Dir =>
      if has_children p (fs w) then raise (enotempty p)
      else modify_world (with_fs (delete p (fs w)))
  | Some (File _) => raise (enotdir p)
  | None => raise (enoent p)
  end.

(** [os.rename(old, new)] for a regular file: the entry moves, replacing a
    file at [new].  The separators write regular files; a directory at
    either end is reported as an [OSError]. *)
Definition os_rename {L} (old new : string) : Py L unit :=
  let* _ := emit (EvRename old new) in
  let* w := get_world in
  match fs w !! old with
  | Some (File content) =>
      match fs w !! new with
      | Some Dir => raise (eisdir new)
      | _ => modify_world (with_fs (<[new := File content]> (delete old (fs w))))
      end
  | Some Dir => raise (eisdir old)
  | None => raise (enoent old)
  end.

(** [shutil.rmtree(p, ignore_errors=True)]: the entry and all below it go;
    nothing is raised. *)
Definition shutil_rmtree {L} (p : string) : Py L unit :=
  let* _ := emit (EvRmtree p) in
  modify_world
    (λ w, with_fs (filter (λ kv, kv.1 ≠ p ∧ under p kv.1 = false) (fs w)) w).

Definition is_file (fs : gmap string Node) (p : string) : bool :=
  match fs !! p with
  | Some (File _) => true
  | _ => false
  end.

Definition make_dir (p : string) (fs : gmap string Node) : gmap string Node :=
  match fs !! p with
  | None => <[p := Dir]> fs
  | Some _ => fs
  end.

(** [pathlib.Path(p).mkdir(parents=True, exist_ok=True)]. *)
Definition mkdir_parents {L} (p : string) : Py L unit :=
  let* _ := emit (EvMkdir p) in
  let* w := get_world in
  match fs w !! p with
  | Some Dir => ret tt
  | Some (File _) => raise (eexist p)
  | None =>
      if existsb (is_file (fs w)) (ancestors p) then raise (enotdir p)
      else modify_world (with_fs (foldr make_dir (fs w) (p :: ancestors p)))
  end.

(** A call into an opaque component that works on the file system: it
    leaves a file system behind and returns or raises. *)
Definition call_external {L} (ev : Event)
    (f : gmap string Node → Result unit * gmap string Node) : Py L unit :=
  λ s, let w := log ev s.2 in
       ((f (fs w)).1, (s.1, with_fs (f (fs w)).2 w)).

(** [d[k]] on a dictionary: a missing key raises [KeyError]. *)
Definition dict_get {L V} (d : gmap string V) (k : string) : Py L V :=
  match d !! k with
  | Some v => ret v
  | None => raise (mkExn KeyError ("'" ++ k ++ "'"))
  end.

(** ** Settings and external components *)

Record Settings := mkSettings {
  MEDIA_ROOT : string;
  SEPARATE_DIR : string;
  UPLOAD_DIR : string;
  DEFAULT_FILE_STORAGE : string
}.

(** What [get_separator] builds. *)
Inductive Separator :=
| SpleeterSeparator
| DemucsSeparator (model_name : string) (random_shifts : Z).

Global Instance Separator_eq_dec : EqDecision Separator.
Proof. solve_decision. Defined.

(** The components this module imports and calls: Django's [slugify]
    (plain and with [allow_unicode=True]), [get_file_ext] and
    [download_audio] of [api/youtubedl.py], the two methods of the
    separators, and the model methods [formatted_name], [source_path] and
    [source_url]. *)
Record Externals := mkExternals {
  slugify : string → string;
  slugify_unicode : string → string;
  get_file_ext : string → string;
  download_audio :
    string → string → gmap string Node → Result unit * gmap string Node;
  separator_create_static_mix :
    Separator → gmap string bool → string → string →
    gmap string Node → Result unit * gmap string Node;
  separator_separate_into_parts :
    Separator → string → string →
    gmap string Node → Result unit * gmap string Node;
  static_formatted_name : StaticMix → string;
  static_source_path : StaticMix → string;
  static_source_url : StaticMix → string;
  dynamic_formatted_name : DynamicMix → string;
  dynamic_source_path : DynamicMix → string;
  dynamic_source_url : DynamicMix → string
}.

(** ** [get_separator] *)

Definition get_separator (separator : string) (random_shifts : Z) : Separator :=
  if bool_decide (separator = "spleeter") then SpleeterSeparator
  else DemucsSeparator separator random_shifts.

(** ** Attribute assignments and [save()] *)

Definition sm_set_status (s : TaskStatus) (o : StaticMix) : StaticMix :=
  mkStaticMix s (sm_error o) (sm_file o) (sm_separator o) (sm_random_shifts o)
    (sm_vocals o) (sm_drums o) (sm_bass o) (sm_other o) (sm_source o).
Definition sm_set_error (e : string) (o : StaticMix) : StaticMix :=
  mkStaticMix (sm_status o) e (sm_file o) (sm_separator o) (sm_random_shifts o)
    (sm_vocals o) (sm_drums o) (sm_bass o) (sm_other o) (sm_source o).
Definition sm_set_file (f : FieldFile) (o : StaticMix) : StaticMix :=
  mkStaticMix (sm_status o) (sm_error o) f (sm_separator o) (sm_random_shifts o)
    (sm_vocals o) (sm_drums o) (sm_bass o) (sm_other o) (sm_source o).

Definition dm_set_status (s : TaskStatus) (o : DynamicMix) : DynamicMix :=
  mkDynamicMix s (dm_error o) (dm_vocals_file o) (dm_other_file o)
    (dm_bass_file o) (dm_drums_file o) (dm_separator o) (dm_random_shifts o)
    (dm_source o).
Definition dm_set_error (e : string) (o : DynamicMix) : DynamicMix :=
  mkDynamicMix (dm_status o) e (dm_vocals_file o) (dm_other_file o)
    (dm_bass_file o) (dm_drums_file o) (dm_separator o) (dm_random_shifts o)
    (dm_source o).
Definition dm_set_vocals_file (f : FieldFile) (o : DynamicMix) : DynamicMix :=
  mkDynamicMix (dm_status o) (dm_error o) f (dm_other_file o)
    (dm_bass_file o) (dm_drums_file o) (dm_separator o) (dm_random_shifts o)
    (dm_source o).
Definition dm_set_other_file (f : FieldFile) (o : DynamicMix) : DynamicMix :=
  mkDynamicMix (dm_status o) (dm_error o) (dm_vocals_file o) f
    (dm_bass_file o) (dm_drums_file o) (dm_separator o) (dm_random_shifts o)
    (dm_source o).
Definition dm_set_bass_file (f : FieldFile) (o : DynamicMix) : DynamicMix :=
  mkDynamicMix (dm_status o) (dm_error o) (dm_vocals_file o) (dm_other_file o)
    f (dm_drums_file o) (dm_separator o) (dm_random_shifts o) (dm_source o).
Definition dm_set_drums_file (f : FieldFile) (o : DynamicMix) : DynamicMix :=
  mkDynamicMix (dm_status o) (dm_error o) (dm_vocals_file o) (dm_other_file o)
    (dm_bass_file o) f (dm_separator o) (dm_random_shifts o) (dm_source o).

Definition yt_set_status (s : TaskStatus) (o : YTAudioDownloadTask)
  : YTAudioDownloadTask := mkYTAudioDownloadTask s (yt_error o).
Definition yt_set_error (e : string) (o : YTAudioDownloadTask)
  : YTAudioDownloadTask := mkYTAudioDownloadTask (yt_status o) e.

(** The two instances [fetch_youtube_audio] holds. *)
Record FetchLocals := mkFetchLocals {
  fetch_task : YTAudioDownloadTask;
  source_file : SourceFile
}.

Definition set_fetch_task (f : YTAudioDownloadTask → YTAudioDownloadTask)
    (l : FetchLocals) : FetchLocals :=
  mkFetchLocals (f (fetch_task l)) (source_file l).
Definition set_source_file (f : SourceFile → SourceFile)
    (l : FetchLocals) : FetchLocals :=
  mkFetchLocals (fetch_task l) (f (source_file l)).

Definition put_static_mix (id : string) (o : StaticMix) (d : Database) : Database :=
  mkDatabase (<[id := o]> (static_mixes d)) (dynamic_mixes d) (source_files d)
    (yt_tasks d).
Definition put_dynamic_mix (id : string) (o : DynamicMix) (d : Database) : Database :=
  mkDatabase (static_mixes d) (<[id := o]> (dynamic_mixes d)) (source_files d)
    (yt_tasks d).
Definition put_source_file (id : string) (o : SourceFile) (d : Database) : Database :=
  mkDatabase (static_mixes d) (dynamic_mixes d) (<[id := o]> (source_files d))
    (yt_tasks d).
Definition put_yt_task (id : string) (o : YTAudioDownloadTask) (d : Database)
  : Database :=
  mkDatabase (static_mixes d) (dynamic_mixes d) (source_files d)
    (<[id := o]> (yt_tasks d)).

(** [instance.save()] writes the instance to the row of its primary key,
    which is the id it was fetched with.  The write itself is taken to
    succeed.  A file field is written as the handler left it: a
    [ContentFile] keeps the name the handler gave it, and the place where the
    storage backend keeps its bytes, which the field declaration in
    [api/models.py] decides, is not part of the row here. *)
Definition static_mix_save (id : string) : Py StaticMix unit :=
  let* o := get_local in
  let* _ := emit (EvSave TStaticMix id (Some (sm_status o))) in
  modify_world (λ w, with_db (put_static_mix id o (db w)) w).

Definition dynamic_mix_save (id : string) : Py DynamicMix unit :=
  let* o := get_local in
  let* _ := emit (EvSave TDynamicMix id (Some (dm_status o))) in
  modify_world (λ w, with_db (put_dynamic_mix id o (db w)) w).

Definition fetch_task_save (id : string) : Py FetchLocals unit :=
  let* l := get_local in
  let* _ := emit (EvSave TYTAudioDownloadTask id (Some (yt_status (fetch_task l)))) in
  modify_world (λ w, with_db (put_yt_task id (fetch_task l) (db w)) w).

Definition source_file_save (id : string) : Py FetchLocals unit :=
  let* l := get_local in
  let* _ := emit (EvSave TSourceFile id None) in
  modify_world (λ w, with_db (put_source_file id (source_file l) (db w)) w).

Definition static_mix_set_status (id : string) (s : TaskStatus) : Py StaticMix unit :=
  let* _ := emit (EvSetStatus TStaticMix id s) in
  modify_local (sm_set_status s).

Definition dynamic_mix_set_status (id : string) (s : TaskStatus)
  : Py DynamicMix unit :=
  let* _ := emit (EvSetStatus TDynamicMix id s) in
  modify_local (dm_set_status s).

Definition fetch_task_set_status (id : string) (s : TaskStatus)
  : Py FetchLocals unit :=
  let* _ := emit (EvSetStatus TYTAudioDownloadTask id s) in
  modify_local (set_fetch_task (yt_set_status s)).

(** [instance.field = value] for a file field, and
    [instance.field.name = name]. *)
Definition set_file_field {L} (t : Table) (id field : string)
    (put : FieldFile → L → L) (value : FieldFile) : Py L unit :=
  let* _ := emit (EvSetFile t id field value) in
  modify_local (put value).

Definition set_file_name {L} (t : Table) (id field : string)
    (get : L → FieldFile) (put : FieldFile → L → L) (name : string) : Py L unit :=
  let* o := get_local in
  set_file_field t id field put (set_name name (get o)).

(** [Model.objects.get(id=...)]. *)
Definition objects_get {R} (model : string) (table : gmap string R) (id : string)
  : Result R :=
  match table !! id with
  | Some row => Ok row
  | None => Raise (mkExn DoesNotExist (model ++ " matching query does not exist."))
  end.

Definition FileSystemStorage : string :=
  "django.core.files.storage.FileSystemStorage".

Definition error_writing : Exn := mkExn Exception "Error writing to file".

(** ** The task handlers *)

Section Tasks.
Context (settings : Settings) (ext : Externals).

Definition is_local : bool :=
  bool_decide (DEFAULT_FILE_STORAGE settings = FileSystemStorage).

(** *** [create_static_mix] *)

(** The body of the [try] statement. *)
Definition static_mix_try (static_mix_id : string) : Py StaticMix unit :=
  let* static_mix := get_local in
  let directory :=
    os_path_join (MEDIA_ROOT settings) [SEPARATE_DIR settings; static_mix_id] in
  let filename := slugify ext (static_formatted_name ext static_mix) ++ ".mp3" in
  let rel_media_path :=
    os_path_join (SEPARATE_DIR settings) [static_mix_id; filename] in
  let rel_path := os_path_join (MEDIA_ROOT settings) [rel_media_path] in
  let rel_path_dir :=
    os_path_join (MEDIA_ROOT settings) [SEPARATE_DIR settings; static_mix_id] in
  let* _ := mkdir_parents directory in
  let separator :=
    get_separator (sm_separator static_mix) (sm_random_shifts static_mix) in
  let parts : gmap string bool :=
    <["other" := sm_other static_mix]>
      (<["bass" := sm_bass static_mix]>
         (<["drums" := sm_drums static_mix]>
            (<["vocals" := sm_vocals static_mix]> ∅))) in
  let path :=
    if is_local then static_source_path ext static_mix
    else static_source_url ext static_mix in
  let* _ := call_external (EvSeparate rel_path)
              (separator_create_static_mix ext separator parts path rel_path) in
  let* found := os_path_exists rel_path in
  if found then
    let* _ := static_mix_set_status static_mix_id DONE in
    let* _ :=
      if is_local then
        set_file_name TStaticMix static_mix_id "file" sm_file sm_set_file
          rel_media_path
      else
        let* raw := open_read rel_path in
        let content_file := ContentFile raw filename in
        let* _ := set_file_field TStaticMix static_mix_id "file" sm_set_file
                    content_file in
        let* _ := os_remove rel_path in
        os_rmdir rel_path_dir in
    static_mix_save static_mix_id
  else raise error_writing.

Definition static_mix_record_error (static_mix_id : string) (error : Exn)
  : Py StaticMix unit :=
  let* _ := static_mix_set_status static_mix_id ERROR in
  let* _ := modify_local (sm_set_error (exn_str error)) in
  static_mix_save static_mix_id.

(** The [except] clauses, in the order they are written. *)
Definition static_mix_except (static_mix_id : string)
  : list (Clause StaticMix unit) :=
  [ (FileNotFoundError, λ error,
      let* _ := print (exn_str error) in
      let* _ := print "Please make sure you have FFmpeg and FFprobe installed." in
      static_mix_record_error static_mix_id error);
    (SoftTimeLimitExceeded, λ _, print "Aborted!");
    (Exception, λ error,
      let* _ := print (exn_str error) in
      static_mix_record_error static_mix_id error) ].

(** What follows the lookup: mark as in progress, then the [try]
    statement.  The ids are not used by the marking but name the row in
    the log. *)
Definition static_mix_mark (static_mix_id : string) : Py StaticMix unit :=
  let* _ := static_mix_set_status static_mix_id IN_PROGRESS in
  static_mix_save static_mix_id.

Definition static_mix_run (static_mix_id : string) : Py StaticMix unit :=
  let* _ := static_mix_mark static_mix_id in
  try_except (static_mix_try static_mix_id) (static_mix_except static_mix_id).

Definition create_static_mix (static_mix_id : string) (w : World)
  : Result unit * World :=
  match objects_get "StaticMix" (static_mixes (db w)) static_mix_id with
  | Raise e =>
      if isinstance e DoesNotExist
      then (Ok tt, with_stdout (stdout w ++ ["StaticMix does not exist"]) w)
      else (Raise e, w)
  | Ok static_mix => run (static_mix_run static_mix_id) static_mix w
  end.

(** *** Helpers of [create_dynamic_mix] *)

Fixpoint exists_parts {L} (rel_path : string) (parts : list string) : Py L bool :=
  match parts with
  | [] => ret true
  | part :: rest =>
      let rel_part_path := os_path_join rel_path [part ++ ".mp3"] in
      let* found := os_path_exists rel_part_path in
      if found then exists_parts rel_path rest
      else
        let* _ := print (rel_part_path ++ " does not exist") in
        ret false
  end.

Definition exists_all_parts {L} (rel_path : string) : Py L bool :=
  exists_parts rel_path ["vocals"; "other"; "bass"; "drums"].

Fixpoint rename_parts {L} (rel_path file_prefix : string) (parts : list string)
  : Py L unit :=
  match parts with
  | [] => ret tt
  | part :: rest =>
      let old_rel_path := os_path_join rel_path [part ++ ".mp3"] in
      let new_rel_path :=
        os_path_join rel_path [file_prefix ++ "-" ++ part ++ ".mp3"] in
      let* _ := print ("renaming " ++ old_rel_path ++ " to " ++ new_rel_path) in
      let* _ := os_rename old_rel_path new_rel_path in
      rename_parts rel_path file_prefix rest
  end.

Definition rename_all_parts {L} (rel_path file_prefix : string) : Py L unit :=
  rename_parts rel_path file_prefix ["vocals"; "other"; "bass"; "drums"].

Definition save_to_local_storage (dynamic_mix_id rel_media_path file_prefix : string)
  : Py DynamicMix unit :=
  let rel_media_path_vocals :=
    os_path_join rel_media_path [file_prefix ++ "-vocals.mp3"] in
  let rel_media_path_other :=
    os_path_join rel_media_path [file_prefix ++ "-other.mp3"] in
  let rel_media_path_bass :=
    os_path_join rel_media_path [file_prefix ++ "-bass.mp3"] in
  let rel_media_path_drums :=
    os_path_join rel_media_path [file_prefix ++ "-drums.mp3"] in
  let* _ := set_file_name TDynamicMix dynamic_mix_id "vocals_file"
              dm_vocals_file dm_set_vocals_file rel_media_path_vocals in
  let* _ := set_file_name TDynamicMix dynamic_mix_id "other_file"
              dm_other_file dm_set_other_file rel_media_path_other in
  let* _ := set_file_name TDynamicMix dynamic_mix_id "bass_file"
              dm_bass_file dm_set_bass_file rel_media_path_bass in
  let* _ := set_file_name TDynamicMix dynamic_mix_id "drums_file"
              dm_drums_file dm_set_drums_file rel_media_path_drums in
  dynamic_mix_save dynamic_mix_id.

(** The loop of [save_to_ext_storage] that fills [content_files]. *)
Fixpoint read_parts {L} (rel_path_dir : string) (filenames : gmap string string)
    (parts : list string) (content_files : gmap string FieldFile)
  : Py L (gmap string FieldFile) :=
  match parts with
  | [] => ret content_files
  | part :: rest =>
      let* filename := dict_get filenames part in
      let rel_path := os_path_join rel_path_dir [filename] in
      let* raw := open_read rel_path in
      read_parts rel_path_dir filenames rest
        (<[part := ContentFile raw filename]> content_files)
  end.

Definition save_to_ext_storage (dynamic_mix_id rel_path_dir file_prefix : string)
  : Py DynamicMix unit :=
  let parts := ["vocals"; "other"; "bass"; "drums"] in
  let filenames : gmap string string :=
    <["drums" := file_prefix ++ "-drums.mp3"]>
      (<["bass" := file_prefix ++ "-bass.mp3"]>
         (<["other" := file_prefix ++ "-other.mp3"]>
            (<["vocals" := file_prefix ++ "-vocals.mp3"]> ∅))) in
  let* content_files := read_parts rel_path_dir filenames parts ∅ in
  let* vocals := dict_get content_files "vocals" in
  let* _ := set_file_field TDynamicMix dynamic_mix_id "vocals_file"
              dm_set_vocals_file vocals in
  let* other := dict_get content_files "other" in
  let* _ := set_file_field TDynamicMix dynamic_mix_id "other_file"
              dm_set_other_file other in
  let* bass := dict_get content_files "bass" in
  let* _ := set_file_field TDynamicMix dynamic_mix_id "bass_file"
              dm_set_bass_file bass in
  let* drums := dict_get content_files "drums" in
  let* _ := set_file_field TDynamicMix dynamic_mix_id "drums_file"
              dm_set_drums_file drums in
  let* _ := dynamic_mix_save dynamic_mix_id in
  shutil_rmtree rel_path_dir.

(** *** [create_dynamic_mix] *)

Definition dynamic_mix_try (dynamic_mix_id : string) : Py DynamicMix unit :=
  let* dynamic_mix := get_local in
  let directory :=
    os_path_join (MEDIA_ROOT settings) [SEPARATE_DIR settings; dynamic_mix_id] in
  let rel_media_path := os_path_join (SEPARATE_DIR settings) [dynamic_mix_id] in
  let file_prefix := slugify ext (dynamic_formatted_name ext dynamic_mix) in
  let rel_path := os_path_join (MEDIA_ROOT settings) [rel_media_path] in
  let* _ := mkdir_parents directory in
  let separator :=
    get_separator (dm_separator dynamic_mix) (dm_random_shifts dynamic_mix) in
  let path :=
    if is_local then dynamic_source_path ext dynamic_mix
    else dynamic_source_url ext dynamic_mix in
  let* _ := call_external (EvSeparate rel_path)
              (separator_separate_into_parts ext separator path rel_path) in
  let* found := exists_all_parts rel_path in
  if found then
    let* _ := rename_all_parts rel_path file_prefix in
    let* _ := dynamic_mix_set_status dynamic_mix_id DONE in
    if is_local then save_to_local_storage dynamic_mix_id rel_media_path file_prefix
    else save_to_ext_storage dynamic_mix_id rel_path file_prefix
  else raise error_writing.

Definition dynamic_mix_record_error (dynamic_mix_id : string) (error : Exn)
  : Py DynamicMix unit :=
  let* _ := dynamic_mix_set_status dynamic_mix_id ERROR in
  let* _ := modify_local (dm_set_error (exn_str error)) in
  dynamic_mix_save dynamic_mix_id.

Definition dynamic_mix_except (dynamic_mix_id : string)
  : list (Clause DynamicMix unit) :=
  [ (FileNotFoundError, λ error,
      let* _ := print (exn_str error) in
      let* _ := print "Please make sure you have FFmpeg and FFprobe installed." in
      dynamic_mix_record_error dynamic_mix_id error);
    (SoftTimeLimitExceeded, λ _, print "Aborted!");
    (Exception, λ error,
      let* _ := print (exn_str error) in
      dynamic_mix_record_error dynamic_mix_id error) ].

Definition dynamic_mix_mark (dynamic_mix_id : string) : Py DynamicMix unit :=
  let* _ := dynamic_mix_set_status dynamic_mix_id IN_PROGRESS in
  dynamic_mix_save dynamic_mix_id.

Definition dynamic_mix_run (dynamic_mix_id : string) : Py DynamicMix unit :=
  let* _ := dynamic_mix_mark dynamic_mix_id in
  try_except (dynamic_mix_try dynamic_mix_id) (dynamic_mix_except dynamic_mix_id).

Definition create_dynamic_mix (dynamic_mix_id : string) (w : World)
  : Result unit * World :=
  match objects_get "DynamicMix" (dynamic_mixes (db w)) dynamic_mix_id with
  | Raise e =>
      if isinstance e DoesNotExist
      then (Ok tt, with_stdout (stdout w ++ ["DynamicMix does not exist"]) w)
      else (Raise e, w)
  | Ok dynamic_mix => run (dynamic_mix_run dynamic_mix_id) dynamic_mix w
  end.

(** *** [fetch_youtube_audio] *)

(** The ids are strings, so that [str(source_file_id)] is
    [source_file_id]. *)
Definition fetch_try (source_file_id fetch_task_id artist title link : string)
  : Py FetchLocals unit :=
  let directory :=
    os_path_join (MEDIA_ROOT settings) [UPLOAD_DIR settings; source_file_id] in
  let filename :=
    slugify_unicode ext (artist ++ " - " ++ title) ++ get_file_ext ext link in
  let rel_media_path :=
    os_path_join (UPLOAD_DIR settings) [source_file_id; filename] in
  let rel_path := os_path_join (MEDIA_ROOT settings) [rel_media_path] in
  let* _ := mkdir_parents directory in
  let* _ := call_external (EvDownload link rel_path)
              (download_audio ext link rel_path) in
  let* found := os_path_exists rel_path in
  if found then
    let* _ := fetch_task_set_status fetch_task_id DONE in
    let* _ :=
      if is_local then
        set_file_name TSourceFile source_file_id "file"
          (λ l, sf_file (source_file l))
          (λ f, set_source_file (λ _, mkSourceFile f)) rel_media_path
      else
        let* raw := open_read rel_path in
        let content_file := ContentFile raw filename in
        let* _ := set_file_field TSourceFile source_file_id "file"
                    (λ f, set_source_file (λ _, mkSourceFile f)) content_file in
        let rel_dir_path :=
          os_path_join (MEDIA_ROOT settings) [UPLOAD_DIR settings; source_file_id] in
        let* _ := os_remove rel_path in
        os_rmdir rel_dir_path in
    let* _ := fetch_task_save fetch_task_id in
    source_file_save source_file_id
  else raise error_writing.

Definition fetch_except (fetch_task_id : string) : list (Clause FetchLocals unit) :=
  [ (SoftTimeLimitExceeded, λ _, print "Aborted!");
    (Exception, λ error,
      let* _ := print (exn_str error) in
      let* _ := fetch_task_set_status fetch_task_id ERROR in
      let* _ := modify_local (set_fetch_task (yt_set_error (exn_str error))) in
      let* _ := fetch_task_save fetch_task_id in
      raise error) ].

Definition fetch_mark (fetch_task_id : string) : Py FetchLocals unit :=
  let* _ := fetch_task_set_status fetch_task_id IN_PROGRESS in
  fetch_task_save fetch_task_id.

Definition fetch_run (source_file_id fetch_task_id artist title link : string)
  : Py FetchLocals unit :=
  let* _ := fetch_mark fetch_task_id in
  try_except (fetch_try source_file_id fetch_task_id artist title link)
    (fetch_except fetch_task_id).

Definition fetch_youtube_audio
    (source_file_id fetch_task_id artist title link : string) (w : World)
  : Result unit * World :=
  match objects_get "SourceFile" (source_files (db w)) source_file_id with
  | Raise e =>
      if isinstance e DoesNotExist
      then (Ok tt, with_stdout (stdout w ++ ["SourceFile does not exist"]) w)
      else (Raise e, w)
  | Ok source_file =>
      match objects_get "YTAudioDownloadTask" (yt_tasks (db w)) fetch_task_id with
      | Raise e => (Raise e, w)
      | Ok fetch_task =>
          run (fetch_run source_file_id fetch_task_id artist title link)
            (mkFetchLocals fetch_task source_file) w
      end
  end.

End Tasks.

(** ** Reasoning about runs *)

(** [wp m Q l w]: running [m] from the instance [l] and the world [w] ends
    in a result, an instance and a world that satisfy [Q]. *)
Definition wp {L A} (m : Py L A) (Q : Result A → L → World → Prop)
    (l : L) (w : World) : Prop :=
  Q (m (l, w)).1 (m (l, w)).2.1 (m (l, w)).2.2.

(** What the [except] clauses make of an exception raised in the state
    [(l, w)]: the [wp] of the clause selected, or the exception itself when
    no clause matches. *)
Definition handle {L A} (clauses : list (Clause L A))
    (Q : Result A → L → World → Prop) (e : Exn) (l : L) (w : World) : Prop :=
  match select_clause clauses e with
  | Some h => wp h Q l w
  | None => Q (Raise e) l w
  end.

(** The calls a run added to the log. *)
Definition events_since (w w' : World) : list Event :=
  drop (length (trace w)) (trace w').

(** The statuses the run saved, in order. *)
Fixpoint saved_statuses (evs : list Event) : list TaskStatus :=
  match evs with
  | [] => []
  | EvSave _ _ (Some s) :: rest => s :: saved_statuses rest
  | _ :: rest => saved_statuses rest
  end.

(** The statuses the run assigned to the status attribute, in order. *)
Fixpoint assigned_statuses (evs : list Event) : list TaskStatus :=
  match evs with
  | [] => []
  | EvSetStatus _ _ s :: rest => s :: assigned_statuses rest
  | _ :: rest => assigned_statuses rest
  end.

(** An exception the last [except Exception] clause is meant for: an
    instance of [Exception] that is not the soft time limit. *)
Definition ordinary (e : Exn) : bool :=
  isinstance e Exception && negb (isinstance e SoftTimeLimitExceeded).

(** The state in which the [try] statement of each handler starts: the
    instance marked as in progress and saved. *)
Definition static_mix_started (id : string) (o : StaticMix) (w : World)
  : StaticMix * World := (static_mix_mark id (o, w)).2.

Definition dynamic_mix_started (id : string) (o : DynamicMix) (w : World)
  : DynamicMix * World := (dynamic_mix_mark id (o, w)).2.

Definition fetch_started (id : string) (l : FetchLocals) (w : World)
  : FetchLocals * World := (fetch_mark id (l, w)).2.

(** Two tables that agree off the row [id]. *)
Definition same_except {R} (id : string) (t t' : gmap string R) : Prop :=
  ∀ id', id' ≠ id → t' !! id' = t !! id'.




(** ** The paths the handlers compute *)

Section Paths.
Context (settings : Settings) (ext : Externals).

(** [directory], also [rel_path_dir], of [create_static_mix] and
    [directory] of [create_dynamic_mix]. *)
Definition separate_dir (id : string) : string :=
  os_path_join (MEDIA_ROOT settings) [SEPARATE_DIR settings; id].

Definition static_mix_filename (o : StaticMix) : string :=
  slugify ext (static_formatted_name ext o) ++ ".mp3".

Definition static_mix_rel_media_path (id : string) (o : StaticMix) : string :=
  os_path_join (SEPARATE_DIR settings) [id; static_mix_filename o].

Definition static_mix_rel_path (id : string) (o : StaticMix) : string :=
  os_path_join (MEDIA_ROOT settings) [static_mix_rel_media_path id o].

Definition dynamic_mix_rel_media_path (id : string) : string :=
  os_path_join (SEPARATE_DIR settings) [id].

Definition dynamic_mix_rel_path (id : string) : string :=
  os_path_join (MEDIA_ROOT settings) [dynamic_mix_rel_media_path id].

Definition dynamic_mix_file_prefix (o : DynamicMix) : string :=
  slugify ext (dynamic_formatted_name ext o).

(** ['{part}.mp3'] and ['{file_prefix}-{part}.mp3'] below [rel_path]. *)
Definition part_path (rel_path part : string) : string :=
  os_path_join rel_path [part ++ ".mp3"].

Definition prefixed_name (file_prefix part : string) : string :=
  file_prefix ++ "-" ++ part ++ ".mp3".

Definition prefixed_path (rel_path file_prefix part : string) : string :=
  os_path_join rel_path [prefixed_name file_prefix part].

Definition upload_dir (source_file_id : string) : string :=
  os_path_join (MEDIA_ROOT settings) [UPLOAD_DIR settings; source_file_id].

Definition fetch_filename (artist title link : string) : string :=
  slugify_unicode ext (artist ++ " - " ++ title) ++ get_file_ext ext link.

Definition fetch_rel_media_path (source_file_id artist title link : string)
  : string :=
  os_path_join (UPLOAD_DIR settings)
    [source_file_id; fetch_filename artist title link].

Definition fetch_rel_path (source_file_id artist title link : string) : string :=
  os_path_join (MEDIA_ROOT settings)
    [fetch_rel_media_path source_file_id artist title link].
End Paths.

(** ** Concrete runs *)

Module Demo.

Definition local_settings : Settings :=
  mkSettings "/media" "separate" "uploads" FileSystemStorage.

Definition s3_settings : Settings :=
  mkSettings "/media" "separate" "uploads"
    "storages.backends.s3boto3.S3Boto3Storage".

Definition soft_timeout : Exn := mkExn SoftTimeLimitExceeded "SoftTimeLimitExceeded()".

Definition ffmpeg_missing : Exn :=
  mkExn FileNotFoundError "[Errno 2] No such file or directory: 'ffmpeg'".

(** A separator that writes what it is asked for. *)
Definition mix_ok (sep : Separator) (parts : gmap string bool) (path out : string)
    (f : gmap string Node) : Result unit * gmap string Node :=
  (Ok tt, <[out := File "mix"]> f).

Definition split_ok (sep : Separator) (path out : string) (f : gmap string Node)
  : Result unit * gmap string Node :=
  (Ok tt,
   <[out ++ "/drums.mp3" := File "d"]>
     (<[out ++ "/bass.mp3" := File "b"]>
        (<[out ++ "/other.mp3" := File "o"]>
           (<[out ++ "/vocals.mp3" := File "v"]> f)))).

Definition fetch_ok (link out : string) (f : gmap string Node)
  : Result unit * gmap string Node :=
  (Ok tt, <[out := File "audio"]> f).


(** Components that return without writing anything. *)
Definition mix_nothing (sep : Separator) (parts : gmap string bool)
    (path out : string) (f : gmap string Node) : Result unit * gmap string Node :=
  (Ok tt, f).

Definition split_nothing (sep : Separator) (path out : string)
    (f : gmap string Node) : Result unit * gmap string Node :=
  (Ok tt, f).

Definition fetch_nothing (link out : string) (f : gmap string Node)
  : Result unit * gmap string Node :=
  (Ok tt, f).

(** Components that raise. *)
Definition mix_raises (e : Exn) (sep : Separator) (parts : gmap string bool)
    (path out : string) (f : gmap string Node) : Result unit * gmap string Node :=
  (Raise e, f).

Definition split_raises (e : Exn) (sep : Separator) (path out : string)
    (f : gmap string Node) : Result unit * gmap string Node :=
  (Raise e, f).

Definition fetch_raises (e : Exn) (link out : string) (f : gmap string Node)
  : Result unit * gmap string Node :=
  (Raise e, f).

Definition externals_with
    (download : string → string → gmap string Node → Result unit * gmap string Node)
    (mix : Separator → gmap string bool → string → string →
           gmap string Node → Result unit * gmap string Node)
    (split : Separator → string → string →
             gmap string Node → Result unit * gmap string Node)
  : Externals :=
  mkExternals (λ s, s) (λ s, s) (λ _, ".webm") download mix split
    (λ _, "song") (λ _, "/media/uploads/9/in.mp3") (λ _, "https://cdn/in.mp3")
    (λ _, "song") (λ _, "/media/uploads/9/in.mp3") (λ _, "https://cdn/in.mp3").

Definition ok_ext : Externals := externals_with fetch_ok mix_ok split_ok.
Definition nothing_ext : Externals :=
  externals_with fetch_nothing mix_nothing split_nothing.
Definition raising_ext (e : Exn) : Externals :=
  externals_with (fetch_raises e) (mix_raises e) (split_raises e).

Definition no_file : FieldFile := mkFieldFile "" None.

Definition static_mix_1 : StaticMix :=
  mkStaticMix QUEUED "" no_file "spleeter" 0 true false false false "9".

Definition dynamic_mix_2 : DynamicMix :=
  mkDynamicMix QUEUED "" no_file no_file no_file no_file "demucs" 1 "9".

Definition database : Database :=
  mkDatabase {["1" := static_mix_1]} {["2" := dynamic_mix_2]}
    {["9" := mkSourceFile no_file]} {["7" := mkYTAudioDownloadTask QUEUED ""]}.

Definition world : World := mkWorld database ∅ [] [].

End Demo.

(** ** Suffixes of paths *)

(** [string_drop n s] is [s] without its first [n] characters. *)
Fixpoint string_drop (n : nat) (s : string) : string :=
  match n, s with
  | S n', String _ s' => string_drop n' s'
  | _, _ => s
  end.

(** [is_suffix s t]: the string [t] ends with [s]. *)
Definition is_suffix (s t : string) : bool :=
  bool_decide (string_drop (String.length t - String.length s) t = s).

(** Two endings that one string can have at once. *)
Definition compatible (s t : string) : bool := is_suffix s t || is_suffix t s.

(** ** Kinds of events *)

(** The calls that read a local file back or remove something from the file
    system. *)
Definition reads_or_removes (ev : Event) : bool :=
  match ev with
  | EvRead _ | EvRemove _ | EvRmdir _ | EvRmtree _ => true
  | _ => false
  end.

(** The calls that rename a file. *)
Definition is_rename (ev : Event) : bool :=
  match ev with
  | EvRename _ _ => true
  | _ => false
  end.

(** * Properties *)

(** From here on [++] is the concatenation of lists (of events, mostly);
    strings are concatenated with [+:+]. *)
Open Scope list_scope.

(** ** Exception classes *)

Lemma class_eqb_eq c d : class_eqb c d = true ↔ c = d.
Proof. destruct c, d; cbv; split; congruence. Qed.

Lemma issubclass_refl c : issubclass c c = true.
Proof. by destruct c. Qed.

Lemma issubclass_trans c d e :
  issubclass c d = true → issubclass d e = true → issubclass c e = true.
Proof. destruct c, d, e; cbv; congruence. Qed.

(** Nothing is both a soft time limit and a missing file. *)
Lemma soft_limit_not_file_not_found e :
  isinstance e SoftTimeLimitExceeded = true →
  isinstance e FileNotFoundError = false.
Proof. destruct e as [[] ?]; cbv; congruence. Qed.

Lemma oserror_ordinary e : isinstance e OSError = true → ordinary e = true.
Proof. destruct e as [[] ?]; cbv; congruence. Qed.

(** ** The rules of [wp] *)

Section WpRules.
Context {L : Type}.
Implicit Types (l : L) (w : World).

Lemma wp_ret {A} (a : A) (Q : Result A → L → World → Prop) l w :
  Q (Ok a) l w → wp (ret a) Q l w.
Proof. done. Qed.

Lemma wp_raise {A} e (Q : Result A → L → World → Prop) l w :
  Q (Raise e) l w → wp (raise e) Q l w.
Proof. done. Qed.

Lemma wp_bind {A B} (m : Py L A) (k : A → Py L B) Q l w :
  wp m (λ r l' w', match r with
                   | Ok a => wp (k a) Q l' w'
                   | Raise e => Q (Raise e) l' w'
                   end) l w →
  wp (bind m k) Q l w.
Proof.
  unfold wp, bind. by destruct (m (l, w)) as [[a|e] [l' w']].
Qed.

Lemma wp_try_except {A} (body : Py L A) clauses Q l w :
  wp body (λ r l' w', match r with
                      | Ok a => Q (Ok a) l' w'
                      | Raise e => handle clauses Q e l' w'
                      end) l w →
  wp (try_except body clauses) Q l w.
Proof.
  unfold handle, wp, try_except. destruct (body (l, w)) as [[a|e] [l' w']]; [done|].
  simpl. by destruct (select_clause clauses e).
Qed.

Lemma wp_mono {A} (m : Py L A) (Q Q' : Result A → L → World → Prop) l w :
  wp m Q l w → (∀ r l' w', Q r l' w' → Q' r l' w') → wp m Q' l w.
Proof. unfold wp. auto. Qed.

Lemma wp_get_local (Q : Result L → L → World → Prop) l w :
  Q (Ok l) l w → wp get_local Q l w.
Proof. done. Qed.

Lemma wp_modify_local f (Q : Result unit → L → World → Prop) l w :
  Q (Ok tt) (f l) w → wp (modify_local f) Q l w.
Proof. done. Qed.

Lemma wp_get_world (Q : Result World → L → World → Prop) l w :
  Q (Ok w) l w → wp get_world Q l w.
Proof. done. Qed.

Lemma wp_modify_world f (Q : Result unit → L → World → Prop) l w :
  Q (Ok tt) l (f w) → wp (modify_world f) Q l w.
Proof. done. Qed.

Lemma wp_emit ev (Q : Result unit → L → World → Prop) l w :
  Q (Ok tt) l (log ev w) → wp (emit ev) Q l w.
Proof. done. Qed.

Lemma wp_print line (Q : Result unit → L → World → Prop) l w :
  Q (Ok tt) l (with_stdout (stdout w ++ [line]) w) → wp (print line) Q l w.
Proof. done. Qed.

Lemma wp_dict_get {V} (d : gmap string V) k (Q : Result V → L → World → Prop) l w :
  (∀ v, d !! k = Some v → Q (Ok v) l w) →
  (d !! k = None → ∀ e, exn_class e = KeyError → Q (Raise e) l w) →
  wp (dict_get d k) Q l w.
Proof.
  intros Hs Hn. unfold wp, dict_get. destruct (d !! k); simpl; eauto.
Qed.

Lemma wp_dict_get_some {V} (d : gmap string V) k v
    (Q : Result V → L → World → Prop) l w :
  d !! k = Some v → Q (Ok v) l w → wp (dict_get d k) Q l w.
Proof. intros H HQ. unfold wp, dict_get. by rewrite H. Qed.

Lemma wp_os_path_exists p (Q : Result bool → L → World → Prop) l w :
  Q (Ok (bool_decide (is_Some (fs w !! p)))) l
    (log (EvExists p (bool_decide (is_Some (fs w !! p)))) w) →
  wp (os_path_exists p) Q l w.
Proof. done. Qed.

Lemma wp_open_read p (Q : Result string → L → World → Prop) l w :
  (∀ c, fs w !! p = Some (File c) → Q (Ok c) l (log (EvRead p) w)) →
  (∀ e, isinstance e OSError = true → Q (Raise e) l (log (EvRead p) w)) →
  wp (open_read p) Q l w.
Proof.
  intros Hok Herr. unfold wp, open_read, bind, emit, get_world, modify_world.
  simpl. destruct (fs w !! p) as [[c|]|] eqn:E; simpl; eauto.
Qed.

Lemma wp_os_remove p (Q : Result unit → L → World → Prop) l w :
  (∀ c, fs w !! p = Some (File c) →
        Q (Ok tt) l (with_fs (delete p (fs w)) (log (EvRemove p) w))) →
  (∀ e, isinstance e OSError = true → Q (Raise e) l (log (EvRemove p) w)) →
  wp (os_remove p) Q l w.
Proof.
  intros Hok Herr. unfold wp, os_remove, bind, emit, get_world, modify_world.
  simpl. destruct (fs w !! p) as [[c|]|] eqn:E; simpl; eauto.
Qed.

Lemma wp_os_rmdir p (Q : Result unit → L → World → Prop) l w :
  (fs w !! p = Some Dir → has_children p (fs w) = false →
        Q (Ok tt) l (with_fs (delete p (fs w)) (log (EvRmdir p) w))) →
  (∀ e, isinstance e OSError = true → Q (Raise e) l (log (EvRmdir p) w)) →
  wp (os_rmdir p) Q l w.
Proof.
  intros Hok Herr. unfold wp, os_rmdir, bind, emit, get_world, modify_world.
  simpl. destruct (fs w !! p) as [[c|]|] eqn:E; simpl; eauto.
  destruct (has_children p (fs w)) eqn:E'; simpl; eauto.
Qed.

Lemma wp_os_rename old new (Q : Result unit → L → World → Prop) l w :
  (∀ c, fs w !! old = Some (File c) → fs w !! new ≠ Some Dir →
        Q (Ok tt) l (with_fs (<[new := File c]> (delete old (fs w)))
                       (log (EvRename old new) w))) →
  (∀ e, isinstance e OSError = true → Q (Raise e) l (log (EvRename old new) w)) →
  wp (os_rename old new) Q l w.
Proof.
  intros Hok Herr. unfold wp, os_rename, bind, emit, get_world, modify_world.
  simpl. destruct (fs w !! old) as [[c|]|] eqn:E; simpl; eauto.
  destruct (fs w !! new) as [[c'|]|] eqn:E'; simpl; eauto;
    apply Hok; congruence.
Qed.

Lemma wp_shutil_rmtree p (Q : Result unit → L → World → Prop) l w :
  Q (Ok tt) l
    (with_fs (filter (λ kv, kv.1 ≠ p ∧ under p kv.1 = false) (fs w))
       (log (EvRmtree p) w)) →
  wp (shutil_rmtree p) Q l w.
Proof. done. Qed.

(** What [mkdir] leaves behind is not looked at again: the separator
    runs next. *)
Lemma wp_mkdir_parents p (Q : Result unit → L → World → Prop) l w :
  (∀ f, Q (Ok tt) l (with_fs f (log (EvMkdir p) w))) →
  (∀ e, isinstance e OSError = true → Q (Raise e) l (log (EvMkdir p) w)) →
  wp (mkdir_parents p) Q l w.
Proof.
  intros Hok Herr. unfold wp, mkdir_parents, bind, emit, get_world, modify_world.
  simpl. destruct (fs w !! p) as [[c|]|] eqn:E; simpl; eauto.
  all: try (specialize (Hok (fs w)); destruct w; exact Hok).
  destruct (existsb _ _); simpl; eauto.
Qed.

Lemma wp_call_external ev f (Q : Result unit → L → World → Prop) l w :
  (∀ r f', f (fs (log ev w)) = (r, f') → Q r l (with_fs f' (log ev w))) →
  wp (call_external ev f) Q l w.
Proof.
  intros H. unfold wp, call_external. simpl.
  apply H. apply surjective_pairing.
Qed.

End WpRules.

(** ** Assignments and saves *)

Lemma wp_set_file_field {L} t id field (put : FieldFile → L → L) value
    (Q : Result unit → L → World → Prop) l w :
  Q (Ok tt) (put value l) (log (EvSetFile t id field value) w) →
  wp (set_file_field t id field put value) Q l w.
Proof. done. Qed.

Lemma wp_set_file_name {L} t id field (get : L → FieldFile) put name
    (Q : Result unit → L → World → Prop) l w :
  Q (Ok tt) (put (set_name name (get l)) l)
    (log (EvSetFile t id field (set_name name (get l))) w) →
  wp (set_file_name t id field get put name) Q l w.
Proof. done. Qed.

Lemma wp_static_mix_set_status id s (Q : Result unit → StaticMix → World → Prop) l w :
  Q (Ok tt) (sm_set_status s l) (log (EvSetStatus TStaticMix id s) w) →
  wp (static_mix_set_status id s) Q l w.
Proof. done. Qed.

Lemma wp_static_mix_save id (Q : Result unit → StaticMix → World → Prop) l w :
  Q (Ok tt) l (with_db (put_static_mix id l (db w))
                 (log (EvSave TStaticMix id (Some (sm_status l))) w)) →
  wp (static_mix_save id) Q l w.
Proof. done. Qed.

Lemma wp_dynamic_mix_set_status id s (Q : Result unit → DynamicMix → World → Prop) l w :
  Q (Ok tt) (dm_set_status s l) (log (EvSetStatus TDynamicMix id s) w) →
  wp (dynamic_mix_set_status id s) Q l w.
Proof. done. Qed.

Lemma wp_dynamic_mix_save id (Q : Result unit → DynamicMix → World → Prop) l w :
  Q (Ok tt) l (with_db (put_dynamic_mix id l (db w))
                 (log (EvSave TDynamicMix id (Some (dm_status l))) w)) →
  wp (dynamic_mix_save id) Q l w.
Proof. done. Qed.

Lemma wp_fetch_task_set_status id s (Q : Result unit → FetchLocals → World → Prop) l w :
  Q (Ok tt) (set_fetch_task (yt_set_status s) l)
    (log (EvSetStatus TYTAudioDownloadTask id s) w) →
  wp (fetch_task_set_status id s) Q l w.
Proof. done. Qed.

Lemma wp_fetch_task_save id (Q : Result unit → FetchLocals → World → Prop) l w :
  Q (Ok tt) l
    (with_db (put_yt_task id (fetch_task l) (db w))
       (log (EvSave TYTAudioDownloadTask id (Some (yt_status (fetch_task l)))) w)) →
  wp (fetch_task_save id) Q l w.
Proof. done. Qed.

Lemma wp_source_file_save id (Q : Result unit → FetchLocals → World → Prop) l w :
  Q (Ok tt) l
    (with_db (put_source_file id (source_file l) (db w))
       (log (EvSave TSourceFile id None) w)) →
  wp (source_file_save id) Q l w.
Proof. done. Qed.

(** Introduce a hypothesis on the file system of the current world. *)
Ltac intro_fs :=
  let H := fresh "Hfs" in
  intros H; cbn [db fs stdout trace with_db with_fs with_stdout log] in H.

(** One step of symbolic execution. *)
Ltac wp_step :=
  lazymatch goal with
  | |- wp (bind _ _) _ _ _ => apply wp_bind
  | |- wp (ret _) _ _ _ => apply wp_ret
  | |- wp (raise _) _ _ _ => apply wp_raise
  | |- wp (try_except _ _) _ _ _ => apply wp_try_except
  | |- wp get_local _ _ _ => apply wp_get_local
  | |- wp get_world _ _ _ => apply wp_get_world
  | |- wp (modify_local _) _ _ _ => apply wp_modify_local
  | |- wp (modify_world _) _ _ _ => apply wp_modify_world
  | |- wp (emit _) _ _ _ => apply wp_emit
  | |- wp (print _) _ _ _ => apply wp_print
  | |- wp (os_path_exists _) _ _ _ => apply wp_os_path_exists
  | |- wp (shutil_rmtree _) _ _ _ => apply wp_shutil_rmtree
  | |- wp (set_file_field _ _ _ _ _) _ _ _ => apply wp_set_file_field
  | |- wp (set_file_name _ _ _ _ _ _) _ _ _ => apply wp_set_file_name
  | |- wp (static_mix_set_status _ _) _ _ _ => apply wp_static_mix_set_status
  | |- wp (static_mix_save _) _ _ _ => apply wp_static_mix_save
  | |- wp (dynamic_mix_set_status _ _) _ _ _ => apply wp_dynamic_mix_set_status
  | |- wp (dynamic_mix_save _) _ _ _ => apply wp_dynamic_mix_save
  | |- wp (fetch_task_set_status _ _) _ _ _ => apply wp_fetch_task_set_status
  | |- wp (fetch_task_save _) _ _ _ => apply wp_fetch_task_save
  | |- wp (source_file_save _) _ _ _ => apply wp_source_file_save
  | |- wp (open_read _) _ _ _ =>
      apply wp_open_read; [intros ?; intro_fs | intros ? ?]
  | |- wp (os_remove _) _ _ _ =>
      apply wp_os_remove; [intros ?; intro_fs | intros ? ?]
  | |- wp (os_rmdir _) _ _ _ =>
      apply wp_os_rmdir; [intro_fs; intro_fs | intros ? ?]
  | |- wp (os_rename _ _) _ _ _ =>
      apply wp_os_rename; [intros ?; intro_fs; intro_fs | intros ? ?]
  | |- wp (mkdir_parents _) _ _ _ =>
      apply wp_mkdir_parents; [intros ? | intros ? ?]
  | |- wp (call_external _ _) _ _ _ =>
      apply wp_call_external; intros [?|?] ?; intro_fs
  | |- wp (dict_get _ _) _ _ _ =>
      first [ eapply wp_dict_get_some;
              [ repeat (rewrite lookup_insert_ne by discriminate);
                apply lookup_insert_eq | ]
            | apply wp_dict_get; [intros ? ? | intros ? ? ?] ]
  | |- wp (exists_all_parts _) _ _ _ =>
      unfold exists_all_parts; cbn [exists_parts]
  | |- wp (rename_all_parts _ _) _ _ _ =>
      unfold rename_all_parts; cbn [rename_parts]
  | |- wp (save_to_local_storage _ _ _) _ _ _ => unfold save_to_local_storage
  | |- wp (save_to_ext_storage _ _ _) _ _ _ =>
      unfold save_to_ext_storage; cbn [read_parts]
  | |- wp (if ?b then _ else _) _ _ _ => destruct b eqn:?
  end;
  cbv beta iota zeta;
  cbn [db fs stdout trace with_db with_fs with_stdout log].

Ltac wp_run := repeat wp_step.

(** ** The [except] clauses *)

(** The clauses of [create_static_mix] by the class of the exception: an
    ordinary exception is recorded on the instance and saved, the soft time
    limit is logged, and anything else propagates. *)
Lemma static_mix_except_cases id e (Q : Result unit → StaticMix → World → Prop) l w :
  (ordinary e = true → ∀ out,
     Q (Ok tt) (sm_set_error (exn_str e) (sm_set_status ERROR l))
       (mkWorld
          (put_static_mix id (sm_set_error (exn_str e) (sm_set_status ERROR l)) (db w))
          (fs w) out
          (trace w ++ [EvSetStatus TStaticMix id ERROR;
                       EvSave TStaticMix id (Some ERROR)]))) →
  (isinstance e SoftTimeLimitExceeded = true →
     Q (Ok tt) l (with_stdout (stdout w ++ ["Aborted!"]) w)) →
  (isinstance e Exception = false → Q (Raise e) l w) →
  handle (static_mix_except id) Q e l w.
Proof.
  intros Hord Hsoft Hbase. unfold handle. destruct e as [c msg].
  destruct c; simpl in *;
    first [ by apply Hbase
          | by apply Hsoft
          | unfold wp; simpl; unfold with_db, log, with_stdout; simpl;
            rewrite <- !app_assoc; exact (Hord eq_refl _) ].
Qed.

Lemma dynamic_mix_except_cases id e (Q : Result unit → DynamicMix → World → Prop) l w :
  (ordinary e = true → ∀ out,
     Q (Ok tt) (dm_set_error (exn_str e) (dm_set_status ERROR l))
       (mkWorld
          (put_dynamic_mix id (dm_set_error (exn_str e) (dm_set_status ERROR l)) (db w))
          (fs w) out
          (trace w ++ [EvSetStatus TDynamicMix id ERROR;
                       EvSave TDynamicMix id (Some ERROR)]))) →
  (isinstance e SoftTimeLimitExceeded = true →
     Q (Ok tt) l (with_stdout (stdout w ++ ["Aborted!"]) w)) →
  (isinstance e Exception = false → Q (Raise e) l w) →
  handle (dynamic_mix_except id) Q e l w.
Proof.
  intros Hord Hsoft Hbase. unfold handle. destruct e as [c msg].
  destruct c; simpl in *;
    first [ by apply Hbase
          | by apply Hsoft
          | unfold wp; simpl; unfold with_db, log, with_stdout; simpl;
            rewrite <- !app_assoc; exact (Hord eq_refl _) ].
Qed.

(** In [fetch_youtube_audio] the last clause raises the exception again. *)
Lemma fetch_except_cases id e (Q : Result unit → FetchLocals → World → Prop) l w :
  (ordinary e = true →
     Q (Raise e)
       (set_fetch_task (yt_set_error (exn_str e))
          (set_fetch_task (yt_set_status ERROR) l))
       (mkWorld
          (put_yt_task id (yt_set_error (exn_str e) (yt_set_status ERROR (fetch_task l)))
             (db w))
          (fs w) (stdout w ++ [exn_str e])
          (trace w ++ [EvSetStatus TYTAudioDownloadTask id ERROR;
                       EvSave TYTAudioDownloadTask id (Some ERROR)]))) →
  (isinstance e SoftTimeLimitExceeded = true →
     Q (Ok tt) l (with_stdout (stdout w ++ ["Aborted!"]) w)) →
  (isinstance e Exception = false → Q (Raise e) l w) →
  handle (fetch_except id) Q e l w.
Proof.
  intros Hord Hsoft Hbase. unfold handle. destruct e as [c msg].
  destruct c; simpl in *;
    first [ by apply Hbase
          | by apply Hsoft
          | unfold wp; simpl; unfold with_db, log, with_stdout; simpl;
            rewrite <- !app_assoc; exact (Hord eq_refl) ].
Qed.

(** Run a handler to its leaves: the [try] statement, then the clause the
    exception selects. *)
Ltac wp_handlers :=
  lazymatch goal with
  | |- handle (static_mix_except _) _ _ _ _ =>
      apply static_mix_except_cases; [intros ? ?|intros ?|intros ?]
  | |- handle (dynamic_mix_except _) _ _ _ _ =>
      apply dynamic_mix_except_cases; [intros ? ?|intros ?|intros ?]
  | |- handle (fetch_except _) _ _ _ _ =>
      apply fetch_except_cases; [intros ?|intros ?|intros ?]
  | |- _ => idtac
  end.

(** Close a leaf whose hypotheses on the class of an exception contradict
    each other. *)
Ltac exn_absurd :=
  exfalso;
  first
    [ match goal with
      | H : isinstance error_writing _ = _ |- _ => cbv in H; discriminate H
      | H : ordinary error_writing = _ |- _ => cbv in H; discriminate H
      end
    | match goal with
      | H : isinstance ?e _ = _ |- _ =>
          is_var e; destruct e as [[] ?];
          repeat match goal with
                 | H' : isinstance _ _ = _ |- _ => cbv in H'
                 | H' : ordinary _ = _ |- _ => cbv in H'
                 | H' : exn_class _ = _ |- _ => cbv in H'
                 end;
          congruence
      end ].

(** ** Runs of the handlers through [wp] *)

Lemma run_wp {L A} (m : Py L A) l w (Q : Result A → World → Prop) :
  wp m (λ r _ w', Q r w') l w → Q (run m l w).1 (run m l w).2.
Proof. done. Qed.

Lemma create_static_mix_run settings ext id w o :
  static_mixes (db w) !! id = Some o →
  create_static_mix settings ext id w = run (static_mix_run settings ext id) o w.
Proof. intros Hrow. unfold create_static_mix, objects_get. by rewrite Hrow. Qed.

Lemma create_dynamic_mix_run settings ext id w o :
  dynamic_mixes (db w) !! id = Some o →
  create_dynamic_mix settings ext id w = run (dynamic_mix_run settings ext id) o w.
Proof. intros Hrow. unfold create_dynamic_mix, objects_get. by rewrite Hrow. Qed.

Lemma fetch_youtube_audio_run settings ext sid fid artist title link w sf ft :
  source_files (db w) !! sid = Some sf →
  yt_tasks (db w) !! fid = Some ft →
  fetch_youtube_audio settings ext sid fid artist title link w =
  run (fetch_run settings ext sid fid artist title link) (mkFetchLocals ft sf) w.
Proof.
  intros Hs Hf. unfold fetch_youtube_audio, objects_get. by rewrite Hs, Hf.
Qed.

(** Turn a goal about the outcome of [run m l w] into a [wp] goal. *)
Ltac wp_start :=
  lazymatch goal with
  | |- context [run ?m ?l ?w] =>
      pattern (run m l w).1, (run m l w).2; apply run_wp
  end.

(** The log of a world reached from [w] is the log of [w] followed by the
    new events. *)
Ltac world_simpl :=
  unfold events_since;
  cbn [db fs stdout trace with_db with_fs with_stdout log
       static_mixes dynamic_mixes source_files yt_tasks
       put_static_mix put_dynamic_mix put_source_file put_yt_task
       sm_status sm_error sm_file sm_set_status sm_set_error sm_set_file
       dm_status dm_error dm_vocals_file dm_other_file dm_bass_file
       dm_drums_file dm_set_status dm_set_error dm_set_vocals_file
       dm_set_other_file dm_set_bass_file dm_set_drums_file
       yt_status yt_error yt_set_status yt_set_error sf_file
       fetch_task source_file set_fetch_task set_source_file
       exn_str exn_class error_writing];
  rewrite <- ?app_assoc;
  rewrite ?drop_app_length;
  cbn [app].


(** ** What the [try] statement does with an exception *)

Lemma try_except_raise {L A} (body : Py L A) clauses s e s' :
  body s = (Raise e, s') →
  try_except body clauses s =
  match select_clause clauses e with
  | Some h => h s'
  | None => (Raise e, s')
  end.
Proof. intros H. unfold try_except. by rewrite H. Qed.

Lemma static_mix_run_raise settings ext id o w e s' :
  static_mix_try settings ext id (static_mix_started id o w) = (Raise e, s') →
  static_mix_run settings ext id (o, w) =
  match select_clause (static_mix_except id) e with
  | Some h => h s'
  | None => (Raise e, s')
  end.
Proof. intros H. by rewrite <- (try_except_raise _ _ _ _ _ H). Qed.

Lemma dynamic_mix_run_raise settings ext id o w e s' :
  dynamic_mix_try settings ext id (dynamic_mix_started id o w) = (Raise e, s') →
  dynamic_mix_run settings ext id (o, w) =
  match select_clause (dynamic_mix_except id) e with
  | Some h => h s'
  | None => (Raise e, s')
  end.
Proof. intros H. by rewrite <- (try_except_raise _ _ _ _ _ H). Qed.

Lemma fetch_run_raise settings ext sid fid artist title link l w e s' :
  fetch_try settings ext sid fid artist title link (fetch_started fid l w)
    = (Raise e, s') →
  fetch_run settings ext sid fid artist title link (l, w) =
  match select_clause (fetch_except fid) e with
  | Some h => h s'
  | None => (Raise e, s')
  end.
Proof. intros H. by rewrite <- (try_except_raise _ _ _ _ _ H). Qed.

(** The soft time limit selects the clause that only prints. *)
Lemma static_mix_except_soft id e :
  isinstance e SoftTimeLimitExceeded = true →
  select_clause (static_mix_except id) e = Some (print "Aborted!").
Proof. destruct e as [[] ?]; cbv; congruence. Qed.

Lemma dynamic_mix_except_soft id e :
  isinstance e SoftTimeLimitExceeded = true →
  select_clause (dynamic_mix_except id) e = Some (print "Aborted!").
Proof. destruct e as [[] ?]; cbv; congruence. Qed.

Lemma fetch_except_soft id e :
  isinstance e SoftTimeLimitExceeded = true →
  select_clause (fetch_except id) e = Some (print "Aborted!").
Proof. destruct e as [[] ?]; cbv; congruence. Qed.

(** From the [wp] of the selected clause to the state it ends in. *)
Lemma select_clause_outcome {L A} (clauses : list (Clause L A)) e
    (Q : Result A → L → World → Prop) l w :
  handle clauses Q e l w →
  ∃ r l' w',
    match select_clause clauses e with
    | Some h => h (l, w)
    | None => (Raise e, (l, w))
    end = (r, (l', w')) ∧ Q r l' w'.
Proof.
  unfold handle. destruct (select_clause clauses e) as [h|]; intros H.
  - exists (h (l, w)).1, (h (l, w)).2.1, (h (l, w)).2.2. split; [|exact H].
    by destruct (h (l, w)) as [? [? ?]].
  - by exists (Raise e), l, w.
Qed.

(** An ordinary exception is recorded on the instance, which is saved. *)
Lemma static_mix_except_ordinary id e l w :
  ordinary e = true →
  ∃ out,
    match select_clause (static_mix_except id) e with
    | Some h => h (l, w)
    | None => (Raise e, (l, w))
    end =
    (Ok tt,
     (sm_set_error (exn_str e) (sm_set_status ERROR l),
      mkWorld
        (put_static_mix id (sm_set_error (exn_str e) (sm_set_status ERROR l)) (db w))
        (fs w) out
        (trace w ++ [EvSetStatus TStaticMix id ERROR;
                     EvSave TStaticMix id (Some ERROR)]))).
Proof.
  intros Hord.
  destruct (select_clause_outcome (static_mix_except id) e
              (λ r l' w', ∃ out, (r, (l', w')) =
                 (Ok tt,
                  (sm_set_error (exn_str e) (sm_set_status ERROR l),
                   mkWorld
                     (put_static_mix id
                        (sm_set_error (exn_str e) (sm_set_status ERROR l)) (db w))
                     (fs w) out
                     (trace w ++ [EvSetStatus TStaticMix id ERROR;
                                  EvSave TStaticMix id (Some ERROR)])))) l w)
    as (r & l' & w' & -> & Hq).
  - apply static_mix_except_cases; intros H; [by eexists|..].
    + unfold ordinary in Hord. rewrite H in Hord.
      by rewrite andb_false_r in Hord.
    + unfold ordinary in Hord. by rewrite H in Hord.
  - exact Hq.
Qed.

Lemma dynamic_mix_except_ordinary id e l w :
  ordinary e = true →
  ∃ out,
    match select_clause (dynamic_mix_except id) e with
    | Some h => h (l, w)
    | None => (Raise e, (l, w))
    end =
    (Ok tt,
     (dm_set_error (exn_str e) (dm_set_status ERROR l),
      mkWorld
        (put_dynamic_mix id (dm_set_error (exn_str e) (dm_set_status ERROR l)) (db w))
        (fs w) out
        (trace w ++ [EvSetStatus TDynamicMix id ERROR;
                     EvSave TDynamicMix id (Some ERROR)]))).
Proof.
  intros Hord.
  destruct (select_clause_outcome (dynamic_mix_except id) e
              (λ r l' w', ∃ out, (r, (l', w')) =
                 (Ok tt,
                  (dm_set_error (exn_str e) (dm_set_status ERROR l),
                   mkWorld
                     (put_dynamic_mix id
                        (dm_set_error (exn_str e) (dm_set_status ERROR l)) (db w))
                     (fs w) out
                     (trace w ++ [EvSetStatus TDynamicMix id ERROR;
                                  EvSave TDynamicMix id (Some ERROR)])))) l w)
    as (r & l' & w' & -> & Hq).
  - apply dynamic_mix_except_cases; intros H; [by eexists|..].
    + unfold ordinary in Hord. rewrite H in Hord.
      by rewrite andb_false_r in Hord.
    + unfold ordinary in Hord. by rewrite H in Hord.
  - exact Hq.
Qed.

Lemma fetch_except_ordinary id e l w :
  ordinary e = true →
  match select_clause (fetch_except id) e with
  | Some h => h (l, w)
  | None => (Raise e, (l, w))
  end =
  (Raise e,
   (set_fetch_task (yt_set_error (exn_str e)) (set_fetch_task (yt_set_status ERROR) l),
    mkWorld
      (put_yt_task id (yt_set_error (exn_str e) (yt_set_status ERROR (fetch_task l)))
         (db w))
      (fs w) (stdout w ++ [exn_str e])
      (trace w ++ [EvSetStatus TYTAudioDownloadTask id ERROR;
                   EvSave TYTAudioDownloadTask id (Some ERROR)]))).
Proof.
  intros Hord.
  destruct (select_clause_outcome (fetch_except id) e
              (λ r l' w', (r, (l', w')) =
                 (Raise e,
                  (set_fetch_task (yt_set_error (exn_str e))
                     (set_fetch_task (yt_set_status ERROR) l),
                   mkWorld
                     (put_yt_task id
                        (yt_set_error (exn_str e) (yt_set_status ERROR (fetch_task l)))
                        (db w))
                     (fs w) (stdout w ++ [exn_str e])
                     (trace w ++ [EvSetStatus TYTAudioDownloadTask id ERROR;
                                  EvSave TYTAudioDownloadTask id (Some ERROR)])))) l w)
    as (r & l' & w' & -> & Hq).
  - apply fetch_except_cases; intros H; [done|..].
    + unfold ordinary in Hord. rewrite H in Hord.
      by rewrite andb_false_r in Hord.
    + unfold ordinary in Hord. by rewrite H in Hord.
  - exact Hq.
Qed.

(** ** The soft time limit *)

(** C5.  When the [try] statement of a handler raises the soft time limit
    ([SoftTimeLimitExceeded]), the handler only prints "Aborted!": the
    instance, the database, the file system and the log of calls are as
    they were when the exception was raised (no status or error field is
    written, nothing is saved) and the handler returns normally, in
    [create_static_mix], [create_dynamic_mix] and [fetch_youtube_audio]. *)
Theorem soft_time_limit_is_only_logged settings ext :
  (∀ id w o e l' w',
     static_mixes (db w) !! id = Some o →
     static_mix_try settings ext id (static_mix_started id o w) = (Raise e, (l', w')) →
     isinstance e SoftTimeLimitExceeded = true →
     static_mix_run settings ext id (o, w)
       = (Ok tt, (l', with_stdout (stdout w' ++ ["Aborted!"]) w')) ∧
     create_static_mix settings ext id w
       = (Ok tt, mkWorld (db w') (fs w') (stdout w' ++ ["Aborted!"]) (trace w'))) ∧
  (∀ id w o e l' w',
     dynamic_mixes (db w) !! id = Some o →
     dynamic_mix_try settings ext id (dynamic_mix_started id o w) = (Raise e, (l', w')) →
     isinstance e SoftTimeLimitExceeded = true →
     dynamic_mix_run settings ext id (o, w)
       = (Ok tt, (l', with_stdout (stdout w' ++ ["Aborted!"]) w')) ∧
     create_dynamic_mix settings ext id w
       = (Ok tt, mkWorld (db w') (fs w') (stdout w' ++ ["Aborted!"]) (trace w'))) ∧
  (∀ sid fid artist title link w sf ft e l' w',
     source_files (db w) !! sid = Some sf →
     yt_tasks (db w) !! fid = Some ft →
     fetch_try settings ext sid fid artist title link
       (fetch_started fid (mkFetchLocals ft sf) w) = (Raise e, (l', w')) →
     isinstance e SoftTimeLimitExceeded = true →
     fetch_run settings ext sid fid artist title link (mkFetchLocals ft sf, w)
       = (Ok tt, (l', with_stdout (stdout w' ++ ["Aborted!"]) w')) ∧
     fetch_youtube_audio settings ext sid fid artist title link w
       = (Ok tt, mkWorld (db w') (fs w') (stdout w' ++ ["Aborted!"]) (trace w'))).
Proof.
  split; [|split].
  - intros id w o e l' w' Hrow Hbody Hsoft.
    assert (Hrun : static_mix_run settings ext id (o, w)
                   = (Ok tt, (l', with_stdout (stdout w' ++ ["Aborted!"]) w'))).
    { rewrite (static_mix_run_raise _ _ _ _ _ _ _ Hbody).
      by rewrite (static_mix_except_soft _ _ Hsoft). }
    split; [exact Hrun|].
    rewrite (create_static_mix_run _ _ _ _ _ Hrow). unfold run. by rewrite Hrun.
  - intros id w o e l' w' Hrow Hbody Hsoft.
    assert (Hrun : dynamic_mix_run settings ext id (o, w)
                   = (Ok tt, (l', with_stdout (stdout w' ++ ["Aborted!"]) w'))).
    { rewrite (dynamic_mix_run_raise _ _ _ _ _ _ _ Hbody).
      by rewrite (dynamic_mix_except_soft _ _ Hsoft). }
    split; [exact Hrun|].
    rewrite (create_dynamic_mix_run _ _ _ _ _ Hrow). unfold run. by rewrite Hrun.
  - intros sid fid artist title link w sf ft e l' w' Hs Hf Hbody Hsoft.
    assert (Hrun : fetch_run settings ext sid fid artist title link
                     (mkFetchLocals ft sf, w)
                   = (Ok tt, (l', with_stdout (stdout w' ++ ["Aborted!"]) w'))).
    { rewrite (fetch_run_raise _ _ _ _ _ _ _ _ _ _ _ Hbody).
      by rewrite (fetch_except_soft _ _ Hsoft). }
    split; [exact Hrun|].
    rewrite (fetch_youtube_audio_run _ _ _ _ _ _ _ _ _ _ Hs Hf).
    unfold run. by rewrite Hrun.
Qed.

(** The three handlers with components that raise the soft time limit: the
    rows stay as the marking left them. *)
Lemma soft_time_limit_is_only_logged_witness :
  let ext := Demo.raising_ext Demo.soft_timeout in
  (create_static_mix Demo.local_settings ext "1" Demo.world).1 = Ok tt ∧
  (create_dynamic_mix Demo.local_settings ext "2" Demo.world).1 = Ok tt ∧
  (fetch_youtube_audio Demo.local_settings ext "9" "7" "a" "t" "l" Demo.world).1
    = Ok tt.
Proof.
  intros ext.
  destruct (soft_time_limit_is_only_logged Demo.local_settings ext)
    as (Hs & Hd & Hf).
  split; [|split].
  - pose (s := static_mix_try Demo.local_settings ext "1"
                 (static_mix_started "1" Demo.static_mix_1 Demo.world)).
    destruct (Hs "1" Demo.world Demo.static_mix_1 Demo.soft_timeout s.2.1 s.2.2)
      as [_ ->]; [vm_compute; reflexivity ..|reflexivity].
  - pose (s := dynamic_mix_try Demo.local_settings ext "2"
                 (dynamic_mix_started "2" Demo.dynamic_mix_2 Demo.world)).
    destruct (Hd "2" Demo.world Demo.dynamic_mix_2 Demo.soft_timeout s.2.1 s.2.2)
      as [_ ->]; [vm_compute; reflexivity ..|reflexivity].
  - pose (s := fetch_try Demo.local_settings ext "9" "7" "a" "t" "l"
                 (fetch_started "7"
                    (mkFetchLocals (mkYTAudioDownloadTask QUEUED "")
                       (mkSourceFile Demo.no_file)) Demo.world)).
    destruct (Hf "9" "7" "a" "t" "l" Demo.world (mkSourceFile Demo.no_file)
                (mkYTAudioDownloadTask QUEUED "") Demo.soft_timeout s.2.1 s.2.2)
      as [_ ->]; [vm_compute; reflexivity ..|reflexivity].
Defined.

(** ** Recording a failure *)

Lemma static_mix_records settings ext id w o e l' w' :
  static_mixes (db w) !! id = Some o →
  static_mix_try settings ext id (static_mix_started id o w) = (Raise e, (l', w')) →
  ordinary e = true →
  ∃ out,
    create_static_mix settings ext id w =
    (Ok tt,
     mkWorld
       (put_static_mix id (sm_set_error (exn_str e) (sm_set_status ERROR l')) (db w'))
       (fs w') out
       (trace w' ++ [EvSetStatus TStaticMix id ERROR;
                     EvSave TStaticMix id (Some ERROR)])).
Proof.
  intros Hrow Hbody Hord.
  destruct (static_mix_except_ordinary id e l' w' Hord) as [out Hh].
  exists out. rewrite (create_static_mix_run _ _ _ _ _ Hrow). unfold run.
  by rewrite (static_mix_run_raise _ _ _ _ _ _ _ Hbody), Hh.
Qed.

Lemma dynamic_mix_records settings ext id w o e l' w' :
  dynamic_mixes (db w) !! id = Some o →
  dynamic_mix_try settings ext id (dynamic_mix_started id o w) = (Raise e, (l', w')) →
  ordinary e = true →
  ∃ out,
    create_dynamic_mix settings ext id w =
    (Ok tt,
     mkWorld
       (put_dynamic_mix id (dm_set_error (exn_str e) (dm_set_status ERROR l')) (db w'))
       (fs w') out
       (trace w' ++ [EvSetStatus TDynamicMix id ERROR;
                     EvSave TDynamicMix id (Some ERROR)])).
Proof.
  intros Hrow Hbody Hord.
  destruct (dynamic_mix_except_ordinary id e l' w' Hord) as [out Hh].
  exists out. rewrite (create_dynamic_mix_run _ _ _ _ _ Hrow). unfold run.
  by rewrite (dynamic_mix_run_raise _ _ _ _ _ _ _ Hbody), Hh.
Qed.

Lemma fetch_records settings ext sid fid artist title link w sf ft e l' w' :
  source_files (db w) !! sid = Some sf →
  yt_tasks (db w) !! fid = Some ft →
  fetch_try settings ext sid fid artist title link
    (fetch_started fid (mkFetchLocals ft sf) w) = (Raise e, (l', w')) →
  ordinary e = true →
  fetch_youtube_audio settings ext sid fid artist title link w =
  (Raise e,
   mkWorld
     (put_yt_task fid (yt_set_error (exn_str e) (yt_set_status ERROR (fetch_task l')))
        (db w'))
     (fs w') (stdout w' ++ [exn_str e])
     (trace w' ++ [EvSetStatus TYTAudioDownloadTask fid ERROR;
                   EvSave TYTAudioDownloadTask fid (Some ERROR)])).
Proof.
  intros Hs Hf Hbody Hord.
  rewrite (fetch_youtube_audio_run _ _ _ _ _ _ _ _ _ _ Hs Hf). unfold run.
  by rewrite (fetch_run_raise _ _ _ _ _ _ _ _ _ _ _ Hbody),
    (fetch_except_ordinary fid e l' w' Hord).
Qed.

(** C1, as the code has it.  When the job record exists and the [try]
    statement raises an exception that is an instance of [Exception] but
    not the soft time limit (a [FileNotFoundError] or any other such
    exception), the handler sets the status of the job instance to ERROR and
    its error to [str(error)] and saves it: the row of the job holds the
    instance with these two fields, and the last two calls of the run are
    the assignment of ERROR and the save. *)
Theorem ordinary_failure_is_recorded settings ext :
  (∀ id w o e l' w',
     static_mixes (db w) !! id = Some o →
     static_mix_try settings ext id (static_mix_started id o w) = (Raise e, (l', w')) →
     ordinary e = true →
     let r := create_static_mix settings ext id w in
     ∃ row, static_mixes (db r.2) !! id = Some row ∧
       sm_status row = ERROR ∧ sm_error row = exn_str e ∧
       row = sm_set_error (exn_str e) (sm_set_status ERROR l') ∧
       trace r.2 = (trace w' ++ [EvSetStatus TStaticMix id ERROR;
                                EvSave TStaticMix id (Some ERROR)])%list) ∧
  (∀ id w o e l' w',
     dynamic_mixes (db w) !! id = Some o →
     dynamic_mix_try settings ext id (dynamic_mix_started id o w) = (Raise e, (l', w')) →
     ordinary e = true →
     let r := create_dynamic_mix settings ext id w in
     ∃ row, dynamic_mixes (db r.2) !! id = Some row ∧
       dm_status row = ERROR ∧ dm_error row = exn_str e ∧
       row = dm_set_error (exn_str e) (dm_set_status ERROR l') ∧
       trace r.2 = (trace w' ++ [EvSetStatus TDynamicMix id ERROR;
                                EvSave TDynamicMix id (Some ERROR)])%list) ∧
  (∀ sid fid artist title link w sf ft e l' w',
     source_files (db w) !! sid = Some sf →
     yt_tasks (db w) !! fid = Some ft →
     fetch_try settings ext sid fid artist title link
       (fetch_started fid (mkFetchLocals ft sf) w) = (Raise e, (l', w')) →
     ordinary e = true →
     let r := fetch_youtube_audio settings ext sid fid artist title link w in
     ∃ row, yt_tasks (db r.2) !! fid = Some row ∧
       yt_status row = ERROR ∧ yt_error row = exn_str e ∧
       row = yt_set_error (exn_str e) (yt_set_status ERROR (fetch_task l')) ∧
       trace r.2 = (trace w' ++ [EvSetStatus TYTAudioDownloadTask fid ERROR;
                                EvSave TYTAudioDownloadTask fid (Some ERROR)])%list).
Proof.
  split; [|split].
  - intros id w o e l' w' Hrow Hbody Hord r. subst r.
    destruct (static_mix_records _ _ _ _ _ _ _ _ Hrow Hbody Hord) as [out ->].
    eexists. split; [apply lookup_insert_eq|done].
  - intros id w o e l' w' Hrow Hbody Hord r. subst r.
    destruct (dynamic_mix_records _ _ _ _ _ _ _ _ Hrow Hbody Hord) as [out ->].
    eexists. split; [apply lookup_insert_eq|done].
  - intros sid fid artist title link w sf ft e l' w' Hs Hf Hbody Hord r. subst r.
    rewrite (fetch_records _ _ _ _ _ _ _ _ _ _ _ _ _ Hs Hf Hbody Hord).
    eexists. split; [apply lookup_insert_eq|done].
Qed.

(** A separator that cannot find FFmpeg: the row ends in ERROR with the
    message of the exception. *)
Lemma ordinary_failure_is_recorded_witness :
  let ext := Demo.raising_ext Demo.ffmpeg_missing in
  (∃ row,
     static_mixes (db (create_static_mix Demo.local_settings ext "1" Demo.world).2)
       !! "1" = Some row ∧
     sm_status row = ERROR ∧ sm_error row = exn_str Demo.ffmpeg_missing) ∧
  (∃ row,
     dynamic_mixes (db (create_dynamic_mix Demo.local_settings ext "2" Demo.world).2)
       !! "2" = Some row ∧
     dm_status row = ERROR ∧ dm_error row = exn_str Demo.ffmpeg_missing) ∧
  (∃ row,
     yt_tasks
       (db (fetch_youtube_audio Demo.local_settings ext "9" "7" "a" "t" "l"
              Demo.world).2) !! "7" = Some row ∧
     yt_status row = ERROR ∧ yt_error row = exn_str Demo.ffmpeg_missing).
Proof.
  intros ext.
  destruct (ordinary_failure_is_recorded Demo.local_settings ext)
    as (Hs & Hd & Hf).
  split; [|split].
  - pose (s := static_mix_try Demo.local_settings ext "1"
                 (static_mix_started "1" Demo.static_mix_1 Demo.world)).
    destruct (Hs "1" Demo.world Demo.static_mix_1 Demo.ffmpeg_missing s.2.1 s.2.2)
      as (row & H1 & H2 & H3 & _); [vm_compute; reflexivity ..|].
    exists row. auto.
  - pose (s := dynamic_mix_try Demo.local_settings ext "2"
                 (dynamic_mix_started "2" Demo.dynamic_mix_2 Demo.world)).
    destruct (Hd "2" Demo.world Demo.dynamic_mix_2 Demo.ffmpeg_missing s.2.1 s.2.2)
      as (row & H1 & H2 & H3 & _); [vm_compute; reflexivity ..|].
    exists row. auto.
  - pose (s := fetch_try Demo.local_settings ext "9" "7" "a" "t" "l"
                 (fetch_started "7"
                    (mkFetchLocals (mkYTAudioDownloadTask QUEUED "")
                       (mkSourceFile Demo.no_file)) Demo.world)).
    destruct (Hf "9" "7" "a" "t" "l" Demo.world (mkSourceFile Demo.no_file)
                (mkYTAudioDownloadTask QUEUED "") Demo.ffmpeg_missing s.2.1 s.2.2)
      as (row & H1 & H2 & H3 & _); [vm_compute; reflexivity ..|].
    exists row. auto.
Defined.

(** C1 fails as stated: the soft time limit is caught, by the second
    [except] clause of [create_static_mix], and nothing is recorded: the row
    stays IN_PROGRESS with an empty error. *)
Lemma soft_time_limit_is_not_recorded :
  let ext := Demo.raising_ext Demo.soft_timeout in
  let r := create_static_mix Demo.local_settings ext "1" Demo.world in
  static_mixes (db Demo.world) !! "1" = Some Demo.static_mix_1 ∧
  (static_mix_try Demo.local_settings ext "1"
     (static_mix_started "1" Demo.static_mix_1 Demo.world)).1
    = Raise Demo.soft_timeout ∧
  isinstance Demo.soft_timeout SoftTimeLimitExceeded = true ∧
  isinstance Demo.soft_timeout Exception = true ∧
  select_clause (static_mix_except "1") Demo.soft_timeout = Some (print "Aborted!") ∧
  r.1 = Ok tt ∧
  sm_status <$> static_mixes (db r.2) !! "1" = Some IN_PROGRESS ∧
  sm_error <$> static_mixes (db r.2) !! "1" = Some "" ∧
  sm_error <$> static_mixes (db r.2) !! "1" ≠ Some (exn_str Demo.soft_timeout).
Proof. vm_compute. repeat split; try reflexivity. discriminate. Qed.

(** ** Raising again in [fetch_youtube_audio] *)

(** C3, as the code has it.  When the [SourceFile] and the download task
    exist and the [try] statement of [fetch_youtube_audio] raises an
    exception that is an instance of [Exception] but not the soft time
    limit, the handler records it on the task row (status ERROR, error
    [str(error)], saved) and then raises the same exception again, so that
    it reaches the queue. *)
Theorem fetch_raises_again settings ext sid fid artist title link w sf ft e l' w' :
  source_files (db w) !! sid = Some sf →
  yt_tasks (db w) !! fid = Some ft →
  fetch_try settings ext sid fid artist title link
    (fetch_started fid (mkFetchLocals ft sf) w) = (Raise e, (l', w')) →
  ordinary e = true →
  let r := fetch_youtube_audio settings ext sid fid artist title link w in
  r.1 = Raise e ∧
  yt_tasks (db r.2) !! fid
    = Some (yt_set_error (exn_str e) (yt_set_status ERROR (fetch_task l'))) ∧
  events_since w' r.2 = [EvSetStatus TYTAudioDownloadTask fid ERROR;
                         EvSave TYTAudioDownloadTask fid (Some ERROR)].
Proof.
  intros Hs Hf Hbody Hord r. subst r.
  rewrite (fetch_records _ _ _ _ _ _ _ _ _ _ _ _ _ Hs Hf Hbody Hord).
  split; [done|]. split; [apply lookup_insert_eq|].
  unfold events_since. simpl. by rewrite drop_app_length.
Qed.

(** A download that cannot find FFmpeg: the exception comes back out of the
    handler. *)
Lemma fetch_raises_again_witness :
  (fetch_youtube_audio Demo.local_settings (Demo.raising_ext Demo.ffmpeg_missing)
     "9" "7" "a" "t" "l" Demo.world).1 = Raise Demo.ffmpeg_missing.
Proof.
  pose (ext := Demo.raising_ext Demo.ffmpeg_missing).
  pose (s := fetch_try Demo.local_settings ext "9" "7" "a" "t" "l"
               (fetch_started "7"
                  (mkFetchLocals (mkYTAudioDownloadTask QUEUED "")
                     (mkSourceFile Demo.no_file)) Demo.world)).
  apply (fetch_raises_again Demo.local_settings ext "9" "7" "a" "t" "l" Demo.world
           (mkSourceFile Demo.no_file) (mkYTAudioDownloadTask QUEUED "")
           Demo.ffmpeg_missing s.2.1 s.2.2); vm_compute; reflexivity.
Defined.

(** C3 fails as stated: the soft time limit is caught in
    [fetch_youtube_audio], by the first [except] clause, and is not raised
    again: the handler returns normally and the queue sees no failure. *)
Lemma fetch_soft_time_limit_is_not_raised_again :
  let ext := Demo.raising_ext Demo.soft_timeout in
  let r := fetch_youtube_audio Demo.local_settings ext "9" "7" "a" "t" "l" Demo.world in
  source_files (db Demo.world) !! "9" = Some (mkSourceFile Demo.no_file) ∧
  yt_tasks (db Demo.world) !! "7" = Some (mkYTAudioDownloadTask QUEUED "") ∧
  (fetch_try Demo.local_settings ext "9" "7" "a" "t" "l"
     (fetch_started "7"
        (mkFetchLocals (mkYTAudioDownloadTask QUEUED "") (mkSourceFile Demo.no_file))
        Demo.world)).1 = Raise Demo.soft_timeout ∧
  select_clause (fetch_except "7") Demo.soft_timeout = Some (print "Aborted!") ∧
  r.1 = Ok tt ∧
  r.1 ≠ Raise Demo.soft_timeout ∧
  yt_tasks (db r.2) !! "7" = Some (mkYTAudioDownloadTask IN_PROGRESS "").
Proof. vm_compute. repeat split; try reflexivity. discriminate. Qed.

(** ** [get_separator] *)

(** C9.  [get_separator] returns a [SpleeterSeparator] exactly when its
    [separator] argument is the string 'spleeter'; for every other string,
    the empty one included, it returns [DemucsSeparator(separator,
    random_shifts)]: it is total and rejects no name. *)
Theorem get_separator_by_name (separator : string) (random_shifts : Z) :
  (get_separator separator random_shifts = SpleeterSeparator ↔ separator = "spleeter") ∧
  (separator = "spleeter" ∨
   get_separator separator random_shifts = DemucsSeparator separator random_shifts).
Proof.
  unfold get_separator. case_bool_decide as H; split.
  - done.
  - by left.
  - split; [discriminate|done].
  - by right.
Qed.

Lemma get_separator_by_name_witness :
  get_separator "spleeter" 3 = SpleeterSeparator ∧
  get_separator "" 3 = DemucsSeparator "" 3 ∧
  get_separator "no-such-model" 0 = DemucsSeparator "no-such-model" 0.
Proof.
  split; [|split].
  - by apply (get_separator_by_name "spleeter" 3).
  - by destruct (get_separator_by_name "" 3) as [_ [?|?]].
  - by destruct (get_separator_by_name "no-such-model" 0) as [_ [?|?]].
Defined.

(** ** A missing record *)

(** C8.  [create_static_mix] and [create_dynamic_mix] called with an id that
    has no row return at once, without raising: the database, the file
    system and the log of calls are unchanged.  [fetch_youtube_audio] does
    so when the [SourceFile] is missing; when the [SourceFile] exists and
    the download task does not, the [DoesNotExist] of the second lookup
    leaves the handler, and the world is unchanged. *)
Theorem missing_record_returns_at_once settings ext :
  (∀ id w,
     static_mixes (db w) !! id = None →
     let r := create_static_mix settings ext id w in
     r.1 = Ok tt ∧ db r.2 = db w ∧ fs r.2 = fs w ∧ trace r.2 = trace w) ∧
  (∀ id w,
     dynamic_mixes (db w) !! id = None →
     let r := create_dynamic_mix settings ext id w in
     r.1 = Ok tt ∧ db r.2 = db w ∧ fs r.2 = fs w ∧ trace r.2 = trace w) ∧
  (∀ sid fid artist title link w,
     source_files (db w) !! sid = None →
     let r := fetch_youtube_audio settings ext sid fid artist title link w in
     r.1 = Ok tt ∧ db r.2 = db w ∧ fs r.2 = fs w ∧ trace r.2 = trace w) ∧
  (∀ sid fid artist title link w sf,
     source_files (db w) !! sid = Some sf →
     yt_tasks (db w) !! fid = None →
     let r := fetch_youtube_audio settings ext sid fid artist title link w in
     (∃ e, r.1 = Raise e ∧ exn_class e = DoesNotExist) ∧ r.2 = w).
Proof.
  split; [|split; [|split]].
  - intros id w H r. subst r. unfold create_static_mix, objects_get.
    by rewrite H.
  - intros id w H r. subst r. unfold create_dynamic_mix, objects_get.
    by rewrite H.
  - intros sid fid artist title link w H r. subst r.
    unfold fetch_youtube_audio, objects_get. by rewrite H.
  - intros sid fid artist title link w sf Hs Hf r. subst r.
    unfold fetch_youtube_audio, objects_get. rewrite Hs, Hf.
    split; [by eexists|done].
Qed.

Lemma missing_record_returns_at_once_witness :
  (create_static_mix Demo.local_settings Demo.ok_ext "5" Demo.world).1 = Ok tt ∧
  db (create_dynamic_mix Demo.local_settings Demo.ok_ext "5" Demo.world).2
    = Demo.database ∧
  fs (fetch_youtube_audio Demo.local_settings Demo.ok_ext "5" "7" "a" "t" "l"
        Demo.world).2 = ∅ ∧
  (fetch_youtube_audio Demo.local_settings Demo.ok_ext "9" "5" "a" "t" "l"
     Demo.world).2 = Demo.world.
Proof.
  destruct (missing_record_returns_at_once Demo.local_settings Demo.ok_ext)
    as (Hs & Hd & Hf & Ht).
  split; [|split; [|split]].
  - apply (Hs "5" Demo.world). reflexivity.
  - apply (Hd "5" Demo.world). reflexivity.
  - apply (Hf "5" "7" "a" "t" "l" Demo.world). reflexivity.
  - apply (Ht "9" "5" "a" "t" "l" Demo.world (mkSourceFile Demo.no_file));
      reflexivity.
Defined.

(** ** Which rows a run writes *)

Lemma same_except_refl {R} id (t : gmap string R) : same_except id t t.
Proof. by intros ? ?. Qed.

Lemma same_except_insert {R} id (t t' : gmap string R) x :
  same_except id t t' → same_except id t (<[id := x]> t').
Proof. intros H id' Hne. rewrite lookup_insert_ne by done. by apply H. Qed.

Lemma static_mix_run_frame settings ext id o w :
  wp (static_mix_run settings ext id)
    (λ _ _ w',
       same_except id (static_mixes (db w)) (static_mixes (db w')) ∧
       dynamic_mixes (db w') = dynamic_mixes (db w) ∧
       source_files (db w') = source_files (db w) ∧
       yt_tasks (db w') = yt_tasks (db w)) o w.
Proof.
  unfold static_mix_run, static_mix_mark, static_mix_try.
  wp_run; wp_handlers; world_simpl;
    (split; [repeat apply same_except_insert; apply same_except_refl|done]).
Qed.

Lemma dynamic_mix_run_frame settings ext id o w :
  wp (dynamic_mix_run settings ext id)
    (λ _ _ w',
       static_mixes (db w') = static_mixes (db w) ∧
       same_except id (dynamic_mixes (db w)) (dynamic_mixes (db w')) ∧
       source_files (db w') = source_files (db w) ∧
       yt_tasks (db w') = yt_tasks (db w)) o w.
Proof.
  unfold dynamic_mix_run, dynamic_mix_mark, dynamic_mix_try.
  wp_run; wp_handlers; world_simpl;
    (split; [done|];
     split; [repeat apply same_except_insert; apply same_except_refl|done]).
Qed.

Lemma fetch_run_frame settings ext sid fid artist title link l w :
  wp (fetch_run settings ext sid fid artist title link)
    (λ _ _ w',
       static_mixes (db w') = static_mixes (db w) ∧
       dynamic_mixes (db w') = dynamic_mixes (db w) ∧
       same_except sid (source_files (db w)) (source_files (db w')) ∧
       same_except fid (yt_tasks (db w)) (yt_tasks (db w'))) l w.
Proof.
  unfold fetch_run, fetch_mark, fetch_try.
  wp_run; wp_handlers; world_simpl;
    (split; [done|]; split; [done|];
     split; repeat apply same_except_insert; apply same_except_refl).
Qed.

(** C2, as the code has it.  A run writes no row but those of the ids it
    was called with: [create_static_mix] leaves every [StaticMix] row of
    another id and the three other tables as they were,
    [create_dynamic_mix] does the same for the [DynamicMix] rows, and
    [fetch_youtube_audio] writes at most two rows, the download task of
    [fetch_task_id] and the [SourceFile] of [source_file_id].  This holds
    for every outcome of the run. *)
Theorem run_writes_only_its_rows settings ext :
  (∀ id w,
     let w' := (create_static_mix settings ext id w).2 in
     same_except id (static_mixes (db w)) (static_mixes (db w')) ∧
     dynamic_mixes (db w') = dynamic_mixes (db w) ∧
     source_files (db w') = source_files (db w) ∧
     yt_tasks (db w') = yt_tasks (db w)) ∧
  (∀ id w,
     let w' := (create_dynamic_mix settings ext id w).2 in
     static_mixes (db w') = static_mixes (db w) ∧
     same_except id (dynamic_mixes (db w)) (dynamic_mixes (db w')) ∧
     source_files (db w') = source_files (db w) ∧
     yt_tasks (db w') = yt_tasks (db w)) ∧
  (∀ sid fid artist title link w,
     let w' := (fetch_youtube_audio settings ext sid fid artist title link w).2 in
     static_mixes (db w') = static_mixes (db w) ∧
     dynamic_mixes (db w') = dynamic_mixes (db w) ∧
     same_except sid (source_files (db w)) (source_files (db w')) ∧
     same_except fid (yt_tasks (db w)) (yt_tasks (db w'))).
Proof.
  split; [|split].
  - intros id w w'. subst w'.
    destruct (static_mixes (db w) !! id) as [o|] eqn:Hrow.
    + rewrite (create_static_mix_run _ _ _ _ _ Hrow).
      apply (static_mix_run_frame settings ext id o w).
    + unfold create_static_mix, objects_get. rewrite Hrow. simpl.
      split; [apply same_except_refl|done].
  - intros id w w'. subst w'.
    destruct (dynamic_mixes (db w) !! id) as [o|] eqn:Hrow.
    + rewrite (create_dynamic_mix_run _ _ _ _ _ Hrow).
      apply (dynamic_mix_run_frame settings ext id o w).
    + unfold create_dynamic_mix, objects_get. rewrite Hrow. simpl.
      split; [done|]. split; [apply same_except_refl|done].
  - intros sid fid artist title link w w'. subst w'.
    destruct (source_files (db w) !! sid) as [sf|] eqn:Hs;
      [destruct (yt_tasks (db w) !! fid) as [ft|] eqn:Hf|].
    + rewrite (fetch_youtube_audio_run _ _ _ _ _ _ _ _ _ _ Hs Hf).
      apply (fetch_run_frame settings ext sid fid artist title link _ w).
    + unfold fetch_youtube_audio, objects_get. rewrite Hs, Hf. simpl.
      repeat split; apply same_except_refl.
    + unfold fetch_youtube_audio, objects_get. rewrite Hs. simpl.
      repeat split; apply same_except_refl.
Qed.

(** A successful static mix of row "1" leaves the other tables alone. *)
Lemma run_writes_only_its_rows_witness :
  let w' := (create_static_mix Demo.local_settings Demo.ok_ext "1" Demo.world).2 in
  dynamic_mixes (db w') = dynamic_mixes Demo.database ∧
  static_mixes (db w') !! "3" = static_mixes Demo.database !! "3" ∧
  yt_tasks (db w') = yt_tasks Demo.database.
Proof.
  intros w'. subst w'.
  destruct (run_writes_only_its_rows Demo.local_settings Demo.ok_ext)
    as (Hs & _ & _).
  destruct (Hs "1" Demo.world) as (H1 & H2 & _ & H4).
  split; [exact H2|]. split; [|exact H4].
  apply H1. discriminate.
Defined.

(** C2 fails as stated: a successful [fetch_youtube_audio] writes two rows,
    the download task "7" ([fetch_task.save()]) and the source file "9"
    ([source_file.save()]); and a run whose record is missing writes
    none. *)
Lemma fetch_writes_two_rows :
  let w' := (fetch_youtube_audio Demo.local_settings Demo.ok_ext "9" "7" "a" "t" "l"
               Demo.world).2 in
  let w'' := (create_static_mix Demo.local_settings Demo.ok_ext "5" Demo.world).2 in
  yt_tasks (db w') !! "7" = Some (mkYTAudioDownloadTask DONE "") ∧
  yt_tasks (db w') !! "7" ≠ yt_tasks (db Demo.world) !! "7" ∧
  source_files (db w') !! "9"
    = Some (mkSourceFile (mkFieldFile "uploads/9/a - t.webm" None)) ∧
  source_files (db w') !! "9" ≠ source_files (db Demo.world) !! "9" ∧
  saved_statuses (trace w') = [IN_PROGRESS; DONE] ∧
  EvSave TSourceFile "9" None ∈ trace w' ∧
  db w'' = db Demo.world.
Proof.
  vm_compute. repeat split; try reflexivity; try discriminate.
  repeat constructor.
Qed.

(** ** The check of the output *)

(** Membership in a list of events that is written out. *)
Ltac in_cases H :=
  repeat first
    [ apply elem_of_nil in H; destruct H
    | apply elem_of_cons in H as [H|H]; [try discriminate H|] ].

Lemma static_mix_checks_output settings ext id w o :
  static_mixes (db w) !! id = Some o →
  let r := create_static_mix settings ext id w in
  let evs := events_since w r.2 in
  let p := static_mix_rel_path settings ext id (sm_set_status IN_PROGRESS o) in
  (EvSetStatus TStaticMix id DONE ∈ evs →
   ∃ rest, evs = [EvSetStatus TStaticMix id IN_PROGRESS;
                  EvSave TStaticMix id (Some IN_PROGRESS);
                  EvMkdir (separate_dir settings id);
                  EvSeparate p; EvExists p true;
                  EvSetStatus TStaticMix id DONE] ++ rest) ∧
  (EvExists p false ∈ evs →
   r.1 = Ok tt ∧
   (∃ row, static_mixes (db r.2) !! id = Some row ∧
           sm_status row = ERROR ∧ sm_error row = "Error writing to file") ∧
   EvSetStatus TStaticMix id DONE ∉ evs).
Proof.
  intros Hrow r evs p. subst r evs p.
  rewrite (create_static_mix_run _ _ _ _ _ Hrow).
  unfold static_mix_rel_path, static_mix_rel_media_path, static_mix_filename,
    separate_dir.
  wp_start. unfold static_mix_run, static_mix_mark, static_mix_try.
  wp_run; wp_handlers; world_simpl.
  all: split; intros Hin; in_cases Hin.
  all: try (by eexists).
  all: try discriminate.
  all: try (split; [done|]; split;
            [eexists; split; [apply lookup_insert_eq|done]
            |intros Hin'; in_cases Hin']).
  all: exn_absurd.
Qed.

Lemma dynamic_mix_checks_output settings ext id w o :
  dynamic_mixes (db w) !! id = Some o →
  let r := create_dynamic_mix settings ext id w in
  let evs := events_since w r.2 in
  let rp := dynamic_mix_rel_path settings id in
  let fp := dynamic_mix_file_prefix ext (dm_set_status IN_PROGRESS o) in
  (EvSetStatus TDynamicMix id DONE ∈ evs →
   ∃ rest, evs = [EvSetStatus TDynamicMix id IN_PROGRESS;
                  EvSave TDynamicMix id (Some IN_PROGRESS);
                  EvMkdir (separate_dir settings id);
                  EvSeparate rp;
                  EvExists (part_path rp "vocals") true;
                  EvExists (part_path rp "other") true;
                  EvExists (part_path rp "bass") true;
                  EvExists (part_path rp "drums") true;
                  EvRename (part_path rp "vocals") (prefixed_path rp fp "vocals");
                  EvRename (part_path rp "other") (prefixed_path rp fp "other");
                  EvRename (part_path rp "bass") (prefixed_path rp fp "bass");
                  EvRename (part_path rp "drums") (prefixed_path rp fp "drums");
                  EvSetStatus TDynamicMix id DONE] ++ rest) ∧
  (∀ q, EvExists q false ∈ evs →
   r.1 = Ok tt ∧
   (∃ row, dynamic_mixes (db r.2) !! id = Some row ∧
           dm_status row = ERROR ∧ dm_error row = "Error writing to file") ∧
   EvSetStatus TDynamicMix id DONE ∉ evs).
Proof.
  intros Hrow r evs rp fp. subst r evs rp fp.
  rewrite (create_dynamic_mix_run _ _ _ _ _ Hrow).
  unfold dynamic_mix_rel_path, dynamic_mix_rel_media_path, dynamic_mix_file_prefix,
    separate_dir, part_path, prefixed_path, prefixed_name.
  wp_start. unfold dynamic_mix_run, dynamic_mix_mark, dynamic_mix_try.
  wp_run; wp_handlers; world_simpl.
  all: split; [intros Hin|intros q Hin]; in_cases Hin.
  all: try (by eexists).
  all: try discriminate.
  all: try (split; [done|]; split;
            [eexists; split; [apply lookup_insert_eq|done]
            |intros Hin'; in_cases Hin']).
  all: exn_absurd.
Qed.

Lemma fetch_checks_output settings ext sid fid artist title link w sf ft :
  source_files (db w) !! sid = Some sf →
  yt_tasks (db w) !! fid = Some ft →
  let r := fetch_youtube_audio settings ext sid fid artist title link w in
  let evs := events_since w r.2 in
  let p := fetch_rel_path settings ext sid artist title link in
  (EvSetStatus TYTAudioDownloadTask fid DONE ∈ evs →
   ∃ rest, evs = [EvSetStatus TYTAudioDownloadTask fid IN_PROGRESS;
                  EvSave TYTAudioDownloadTask fid (Some IN_PROGRESS);
                  EvMkdir (upload_dir settings sid);
                  EvDownload link p; EvExists p true;
                  EvSetStatus TYTAudioDownloadTask fid DONE] ++ rest) ∧
  (EvExists p false ∈ evs →
   r.1 = Raise error_writing ∧
   (∃ row, yt_tasks (db r.2) !! fid = Some row ∧
           yt_status row = ERROR ∧ yt_error row = "Error writing to file") ∧
   EvSetStatus TYTAudioDownloadTask fid DONE ∉ evs).
Proof.
  intros Hs Hf r evs p. subst r evs p.
  rewrite (fetch_youtube_audio_run _ _ _ _ _ _ _ _ _ _ Hs Hf).
  unfold fetch_rel_path, fetch_rel_media_path, fetch_filename, upload_dir.
  wp_start. unfold fetch_run, fetch_mark, fetch_try.
  wp_run; wp_handlers; world_simpl.
  all: split; intros Hin; in_cases Hin.
  all: try (by eexists).
  all: try discriminate.
  all: try (split; [done|]; split;
            [eexists; split; [apply lookup_insert_eq|done]
            |intros Hin'; in_cases Hin']).
  all: exn_absurd.
Qed.

(** C4.  When the job record exists, a handler marks the job as done only
    after the separator or the downloader has been called and every
    expected output has been found: the single output file in
    [create_static_mix] and [fetch_youtube_audio], the four part files
    [vocals.mp3], [other.mp3], [bass.mp3] and [drums.mp3] (then renamed) in
    [create_dynamic_mix].  When a check finds a file missing, the handler
    raises [Exception('Error writing to file')] and records it: the row ends
    with the status ERROR and this message as its error, and the status is
    never set to DONE ([fetch_youtube_audio] then raises the exception
    again). *)
Theorem output_is_checked_before_done settings ext :
  (∀ id w o,
     static_mixes (db w) !! id = Some o →
     let r := create_static_mix settings ext id w in
     let evs := events_since w r.2 in
     let p := static_mix_rel_path settings ext id (sm_set_status IN_PROGRESS o) in
     (EvSetStatus TStaticMix id DONE ∈ evs →
      ∃ rest, evs = [EvSetStatus TStaticMix id IN_PROGRESS;
                     EvSave TStaticMix id (Some IN_PROGRESS);
                     EvMkdir (separate_dir settings id);
                     EvSeparate p; EvExists p true;
                     EvSetStatus TStaticMix id DONE] ++ rest) ∧
     (EvExists p false ∈ evs →
      r.1 = Ok tt ∧
      (∃ row, static_mixes (db r.2) !! id = Some row ∧
              sm_status row = ERROR ∧ sm_error row = "Error writing to file") ∧
      EvSetStatus TStaticMix id DONE ∉ evs)) ∧
  (∀ id w o,
     dynamic_mixes (db w) !! id = Some o →
     let r := create_dynamic_mix settings ext id w in
     let evs := events_since w r.2 in
     let rp := dynamic_mix_rel_path settings id in
     let fp := dynamic_mix_file_prefix ext (dm_set_status IN_PROGRESS o) in
     (EvSetStatus TDynamicMix id DONE ∈ evs →
      ∃ rest, evs = [EvSetStatus TDynamicMix id IN_PROGRESS;
                     EvSave TDynamicMix id (Some IN_PROGRESS);
                     EvMkdir (separate_dir settings id);
                     EvSeparate rp;
                     EvExists (part_path rp "vocals") true;
                     EvExists (part_path rp "other") true;
                     EvExists (part_path rp "bass") true;
                     EvExists (part_path rp "drums") true;
                     EvRename (part_path rp "vocals") (prefixed_path rp fp "vocals");
                     EvRename (part_path rp "other") (prefixed_path rp fp "other");
                     EvRename (part_path rp "bass") (prefixed_path rp fp "bass");
                     EvRename (part_path rp "drums") (prefixed_path rp fp "drums");
                     EvSetStatus TDynamicMix id DONE] ++ rest) ∧
     (∀ q, EvExists q false ∈ evs →
      r.1 = Ok tt ∧
      (∃ row, dynamic_mixes (db r.2) !! id = Some row ∧
              dm_status row = ERROR ∧ dm_error row = "Error writing to file") ∧
      EvSetStatus TDynamicMix id DONE ∉ evs)) ∧
  (∀ sid fid artist title link w sf ft,
     source_files (db w) !! sid = Some sf →
     yt_tasks (db w) !! fid = Some ft →
     let r := fetch_youtube_audio settings ext sid fid artist title link w in
     let evs := events_since w r.2 in
     let p := fetch_rel_path settings ext sid artist title link in
     (EvSetStatus TYTAudioDownloadTask fid DONE ∈ evs →
      ∃ rest, evs = [EvSetStatus TYTAudioDownloadTask fid IN_PROGRESS;
                     EvSave TYTAudioDownloadTask fid (Some IN_PROGRESS);
                     EvMkdir (upload_dir settings sid);
                     EvDownload link p; EvExists p true;
                     EvSetStatus TYTAudioDownloadTask fid DONE] ++ rest) ∧
     (EvExists p false ∈ evs →
      r.1 = Raise error_writing ∧
      (∃ row, yt_tasks (db r.2) !! fid = Some row ∧
              yt_status row = ERROR ∧ yt_error row = "Error writing to file") ∧
      EvSetStatus TYTAudioDownloadTask fid DONE ∉ evs)).
Proof.
  split; [|split].
  - intros id w o Hrow. exact (static_mix_checks_output settings ext id w o Hrow).
  - intros id w o Hrow. exact (dynamic_mix_checks_output settings ext id w o Hrow).
  - intros sid fid artist title link w sf ft Hs Hf.
    exact (fetch_checks_output settings ext sid fid artist title link w sf ft Hs Hf).
Qed.

(** Components that return without writing their output: every row ends
    in ERROR with the message 'Error writing to file'. *)
Lemma output_is_checked_before_done_witness :
  (∃ row,
     static_mixes
       (db (create_static_mix Demo.local_settings Demo.nothing_ext "1" Demo.world).2)
       !! "1" = Some row ∧
     sm_status row = ERROR ∧ sm_error row = "Error writing to file") ∧
  (∃ row,
     dynamic_mixes
       (db (create_dynamic_mix Demo.local_settings Demo.nothing_ext "2" Demo.world).2)
       !! "2" = Some row ∧
     dm_status row = ERROR ∧ dm_error row = "Error writing to file") ∧
  (∃ row,
     yt_tasks
       (db (fetch_youtube_audio Demo.local_settings Demo.nothing_ext "9" "7" "a" "t"
              "l" Demo.world).2) !! "7" = Some row ∧
     yt_status row = ERROR ∧ yt_error row = "Error writing to file").
Proof.
  destruct (output_is_checked_before_done Demo.local_settings Demo.nothing_ext)
    as (Hs & Hd & Hf).
  split; [|split].
  - destruct (Hs "1" Demo.world Demo.static_mix_1) as [_ H]; [reflexivity|].
    apply H. vm_compute. repeat constructor.
  - destruct (Hd "2" Demo.world Demo.dynamic_mix_2) as [_ H]; [reflexivity|].
    apply (H "/media/separate/2/vocals.mp3"). vm_compute. repeat constructor.
  - destruct (Hf "9" "7" "a" "t" "l" Demo.world (mkSourceFile Demo.no_file)
                (mkYTAudioDownloadTask QUEUED "")) as [_ H]; [reflexivity..|].
    apply H. vm_compute. repeat constructor.
Defined.

(** ** The order of the steps *)









(** ** [os.path.join] is associative *)

Lemma append_cons x (a b : string) : String x a +:+ b = String x (a +:+ b).
Proof. reflexivity. Qed.

Lemma append_assoc (a b c : string) : (a +:+ b) +:+ c = a +:+ (b +:+ c).
Proof.
  induction a as [|x a IH]; [reflexivity|]. rewrite !append_cons. by rewrite IH.
Qed.









(** ** Copying to an object-storage backend *)






(** ** The renamed parts *)




(** * Further properties of the helpers and the handlers *)

(** ** [exists_all_parts] *)

(** One round of the loop of [exists_all_parts]. *)
Lemma exists_parts_cons {L} rp part rest (l : L) w :
  exists_parts rp (part :: rest) (l, w) =
  if bool_decide (is_Some (fs w !! part_path rp part))
  then exists_parts rp rest (l, log (EvExists (part_path rp part) true) w)
  else (Ok false,
        (l, with_stdout (stdout w ++ [part_path rp part +:+ " does not exist"])
              (log (EvExists (part_path rp part) false) w))).
Proof.
  cbn [exists_parts].
  change (os_path_join rp [part +:+ ".mp3"]) with (part_path rp part).
  unfold bind, os_path_exists, get_world, emit, modify_world, ret, print.
  cbn -[exists_parts part_path].
  by destruct (bool_decide _).
Qed.

Lemma exists_parts_all {L} rp parts (l : L) w :
  Forall (λ q, is_Some (fs w !! part_path rp q)) parts →
  exists_parts rp parts (l, w) =
  (Ok true,
   (l, mkWorld (db w) (fs w) (stdout w)
         (trace w ++ ((λ q, EvExists (part_path rp q) true) <$> parts)))).
Proof.
  revert w. induction parts as [|part rest IH]; intros w Hall.
  - cbn. rewrite app_nil_r. by destruct w.
  - apply Forall_cons in Hall as [Hp Hrest].
    rewrite exists_parts_cons, bool_decide_eq_true_2 by done.
    rewrite IH by done. cbn. by rewrite <- app_assoc.
Qed.

Lemma exists_parts_stops {L} rp pre part post (l : L) w :
  Forall (λ q, is_Some (fs w !! part_path rp q)) pre →
  fs w !! part_path rp part = None →
  exists_parts rp (pre ++ part :: post) (l, w) =
  (Ok false,
   (l, mkWorld (db w) (fs w)
         (stdout w ++ [part_path rp part +:+ " does not exist"])
         (trace w ++ ((λ q, EvExists (part_path rp q) true) <$> pre)
                  ++ [EvExists (part_path rp part) false]))).
Proof.
  revert w. induction pre as [|q pre IH]; intros w Hall Hmiss.
  - cbn [fmap list_fmap app]. rewrite exists_parts_cons, bool_decide_eq_false_2.
    + done.
    + rewrite Hmiss. by intros [? ?].
  - apply Forall_cons in Hall as [Hp Hrest].
    cbn [fmap list_fmap app]. rewrite exists_parts_cons, bool_decide_eq_true_2 by done.
    rewrite IH by done. cbn. by rewrite <- app_assoc.
Qed.

Lemma first_failure {A} (P : A → Prop) `{∀ x, Decision (P x)} (xs : list A) :
  Forall P xs ∨ ∃ pre x post, xs = pre ++ x :: post ∧ Forall P pre ∧ ¬ P x.
Proof.
  induction xs as [|x xs IH]; [by left|].
  destruct (decide (P x)) as [Hx|Hx].
  - destruct IH as [Hall|(pre & y & post & -> & Hpre & Hy)].
    + left. by constructor.
    + right. exists (x :: pre), y, post. split; [done|]. split; [by constructor|done].
  - right. by exists [], x, xs.
Qed.

(** X1.  [exists_all_parts] answers whether ['vocals.mp3'], ['other.mp3'],
    ['bass.mp3'] and ['drums.mp3'] all exist below [rel_path]: it returns
    [True] exactly when every one of the four paths is present (as a file or
    a directory), it never raises, and it changes neither the instance, nor
    the database, nor the file system; when it returns [True] it prints
    nothing. *)
Theorem exists_all_parts_checks_every_part {L} rel_path (l : L) w :
  let r := exists_all_parts rel_path (l, w) in
  ∃ b, r.1 = Ok b ∧
    (b = true ↔
     ∀ part, part ∈ ["vocals"; "other"; "bass"; "drums"] →
             is_Some (fs w !! os_path_join rel_path [part +:+ ".mp3"])) ∧
    r.2.1 = l ∧ db r.2.2 = db w ∧ fs r.2.2 = fs w ∧
    (b = true → stdout r.2.2 = stdout w).
Proof.
  intros r. subst r. unfold exists_all_parts.
  set (parts := ["vocals"; "other"; "bass"; "drums"]). clearbody parts.
  destruct (first_failure (λ q, is_Some (fs w !! part_path rel_path q)) parts)
    as [Hall|(pre & x & post & Hparts & Hpre & Hx)].
  - rewrite (exists_parts_all _ _ _ _ Hall). exists true. cbn.
    split; [done|]. split; [|done]. split; [|done].
    intros _ part Hin. by apply (proj1 (Forall_forall _ _) Hall).
  - rewrite Hparts.
    rewrite (exists_parts_stops _ _ _ _ _ _ Hpre) by (by apply eq_None_not_Some).
    exists false. cbn. split; [done|]. split; [|done]. split; [done|].
    intros Hall. exfalso. apply Hx. apply (Hall x).
    apply elem_of_app. right. by left.
Qed.

(** With the three parts [vocals], [other] and [bass] on disk and [drums]
    missing, the answer is [False]; with all four it is [True]. *)
Lemma exists_all_parts_checks_every_part_witness :
  let f3 : gmap string Node :=
    {[ "/m/vocals.mp3" := File "v"; "/m/other.mp3" := File "o";
       "/m/bass.mp3" := File "b" ]} in
  (exists_all_parts "/m" (tt, mkWorld Demo.database f3 [] [])).1 = Ok false ∧
  (exists_all_parts "/m"
     (tt, mkWorld Demo.database (<["/m/drums.mp3" := Dir]> f3) [] [])).1 = Ok true.
Proof.
  intros f3. split.
  - destruct (exists_all_parts_checks_every_part "/m" tt
                (mkWorld Demo.database f3 [] [])) as (b & Hb & Hiff & _).
    rewrite Hb. f_equal. destruct b; [|done]. exfalso.
    destruct (proj1 Hiff eq_refl "drums") as [x Hx]; [|by vm_compute in Hx].
    do 3 right. by left.
  - destruct (exists_all_parts_checks_every_part "/m" tt
                (mkWorld Demo.database (<["/m/drums.mp3" := Dir]> f3) [] []))
      as (b & Hb & Hiff & _).
    rewrite Hb. f_equal. apply Hiff. intros part Hin.
    repeat (apply elem_of_cons in Hin as [->|Hin]); [vm_compute; by eexists..|].
    by apply elem_of_nil in Hin.
Defined.

(** X2.  [exists_all_parts] stops at the first part that is missing: the
    parts before it have been checked and found, the missing one is checked
    and reported on standard output with ['{path} does not exist'], the
    parts after it are not looked at, and the answer is [False]. *)
Theorem exists_all_parts_stops_at_first_missing {L} rel_path pre part post (l : L) w :
  ["vocals"; "other"; "bass"; "drums"] = pre ++ part :: post →
  (∀ q, q ∈ pre → is_Some (fs w !! part_path rel_path q)) →
  fs w !! part_path rel_path part = None →
  exists_all_parts rel_path (l, w) =
  (Ok false,
   (l, mkWorld (db w) (fs w)
         (stdout w ++ [part_path rel_path part +:+ " does not exist"])
         (trace w ++ ((λ q, EvExists (part_path rel_path q) true) <$> pre)
                  ++ [EvExists (part_path rel_path part) false]))).
Proof.
  intros Hparts Hpre Hmiss. unfold exists_all_parts. rewrite Hparts.
  apply exists_parts_stops; [|done]. by apply Forall_forall.
Qed.

Lemma exists_all_parts_stops_at_first_missing_witness :
  let f1 : gmap string Node := {[ "/m/vocals.mp3" := File "v"; "/m/bass.mp3" := File "b" ]} in
  exists_all_parts "/m" (tt, mkWorld Demo.database f1 [] []) =
  (Ok false,
   (tt, mkWorld Demo.database f1 ["/m/other.mp3 does not exist"]
          [EvExists "/m/vocals.mp3" true; EvExists "/m/other.mp3" false])).
Proof.
  intros f1.
  apply (exists_all_parts_stops_at_first_missing "/m" ["vocals"] "other"
           ["bass"; "drums"] tt (mkWorld Demo.database f1 [] [])).
  - reflexivity.
  - intros q Hin. apply elem_of_cons in Hin as [->|Hin]; [vm_compute; by eexists|by apply elem_of_nil in Hin].
  - by vm_compute.
Defined.

(** ** Paths that cannot coincide *)

Lemma length_append (a b : string) :
  String.length (a +:+ b) = String.length a + String.length b.
Proof. induction a as [|x a IH]; [done|]. rewrite append_cons. simpl. by rewrite IH. Qed.

Lemma string_drop_append (a s : string) : string_drop (String.length a) (a +:+ s) = s.
Proof. induction a as [|x a IH]; [by destruct s|]. by rewrite append_cons. Qed.

Lemma string_drop_add (n : nat) (b t : string) :
  string_drop (String.length b + n) (b +:+ t) = string_drop n t.
Proof. induction b as [|x b IH]; [done|]. by rewrite append_cons. Qed.

Lemma append_eq_suffix (a b s t : string) :
  a +:+ s = b +:+ t → (String.length s ≤ String.length t)%nat → is_suffix s t = true.
Proof.
  intros Heq Hlen. apply bool_decide_eq_true.
  assert (String.length a = String.length b + (String.length t - String.length s)) as Ha.
  { apply (f_equal String.length) in Heq. rewrite !length_append in Heq. lia. }
  rewrite <- (string_drop_add _ b), <- Ha, <- Heq. apply string_drop_append.
Qed.

Lemma append_eq_compatible (a b s t : string) :
  a +:+ s = b +:+ t → compatible s t = true.
Proof.
  intros Heq. unfold compatible. apply orb_true_iff.
  destruct (decide (String.length s ≤ String.length t)%nat).
  - left. by eapply append_eq_suffix.
  - right. eapply append_eq_suffix; [symmetry; exact Heq|lia].
Qed.

Lemma endswith_sep_inv (s : string) : endswith_sep s = true → ∃ a, s = a +:+ "/".
Proof.
  induction s as [|x s IH]; [done|]. simpl. destruct s as [|y s'].
  - intros ->%bool_decide_eq_true. by exists "".
  - intros [a Ha]%IH. exists (String x a). by rewrite append_cons, <- Ha.
Qed.

Lemma join_one_suffix rp x : ∃ a, os_path_join rp [x] = a +:+ x.
Proof.
  unfold os_path_join. simpl. unfold join_step.
  destruct (startswith_sep x); [by exists ""|].
  destruct (_ || _); [by exists rp|].
  exists (rp +:+ "/"). by rewrite append_assoc.
Qed.

Lemma join_one_shape rp x :
  startswith_sep x = false →
  os_path_join rp [x] = "" +:+ x ∨ ∃ a, os_path_join rp [x] = a +:+ "/" +:+ x.
Proof.
  intros Hx. unfold os_path_join. simpl. unfold join_step. rewrite Hx.
  destruct (bool_decide (rp = "")) eqn:E; simpl.
  - apply bool_decide_eq_true in E as ->. by left.
  - destruct (endswith_sep rp) eqn:E'.
    + right. apply endswith_sep_inv in E' as [a ->]. exists a. by rewrite append_assoc.
    + right. by exists rp.
Qed.

Lemma is_suffix_whole (b t : string) : is_suffix t (b +:+ t) = true.
Proof. apply (append_eq_suffix b ""); [done|]. rewrite length_append. lia. Qed.

Lemma append_eq_whole (x b t : string) : x = b +:+ t → is_suffix t x = true.
Proof. intros ->. apply is_suffix_whole. Qed.

Lemma part_path_shape rp part :
  startswith_sep (part +:+ ".mp3") = false →
  part_path rp part = part +:+ ".mp3" ∨
  ∃ a, part_path rp part = a +:+ "/" +:+ part +:+ ".mp3".
Proof. intros H. by destruct (join_one_shape rp _ H) as [?|[a ?]]; [left|right; exists a]. Qed.

Lemma prefixed_path_shape rp fp part :
  ∃ b, prefixed_path rp fp part = b +:+ "-" +:+ part +:+ ".mp3".
Proof.
  destruct (join_one_suffix rp (prefixed_name fp part)) as [a Ha].
  exists (a +:+ fp). unfold prefixed_path. rewrite Ha. unfold prefixed_name.
  by rewrite append_assoc.
Qed.

Ltac path_shapes H :=
  repeat match type of H with
  | context [part_path ?rp ?p] =>
      let E := fresh "E" in
      destruct (part_path_shape rp p eq_refl) as [E|[? E]]; rewrite E in H; clear E
  | context [prefixed_path ?rp ?fp ?p] =>
      let E := fresh "E" in
      destruct (prefixed_path_shape rp fp p) as [? E]; rewrite E in H; clear E
  end.

Ltac paths_differ :=
  let H := fresh "H" in
  intros H; path_shapes H;
  first
    [ apply append_eq_compatible in H; vm_compute in H; discriminate H
    | apply append_eq_whole in H; vm_compute in H; discriminate H
    | symmetry in H; apply append_eq_whole in H; vm_compute in H; discriminate H
    | vm_compute in H; discriminate H ].


(** ** [rename_all_parts] *)



(** Every list of part and prefixed paths written out has no duplicates. *)
Ltac paths_nodup :=
  cbn [fmap list_fmap app];
  repeat (apply NoDup_cons; split;
          [rewrite ?not_elem_of_cons; repeat split; try apply not_elem_of_nil;
           paths_differ|]);
  apply NoDup_nil_2.






Lemma static_mix_except_base id e :
  isinstance e Exception = false → select_clause (static_mix_except id) e = None.
Proof. destruct e as [[] ?]; cbv; congruence. Qed.

Lemma dynamic_mix_except_base id e :
  isinstance e Exception = false → select_clause (dynamic_mix_except id) e = None.
Proof. destruct e as [[] ?]; cbv; congruence. Qed.

Lemma fetch_except_base id e :
  isinstance e Exception = false → select_clause (fetch_except id) e = None.
Proof. destruct e as [[] ?]; cbv; congruence. Qed.

(** X5.  An exception that is not an instance of [Exception] (a
    [KeyboardInterrupt], say) matches none of the [except] clauses: raised
    in the [try] statement of any of the three handlers, it leaves the
    handler as it is, and nothing is printed, recorded or saved after it was
    raised. *)
Theorem exception_outside_exception_propagates settings ext :
  (∀ id w o e l' w',
     static_mixes (db w) !! id = Some o →
     static_mix_try settings ext id (static_mix_started id o w) = (Raise e, (l', w')) →
     isinstance e Exception = false →
     create_static_mix settings ext id w = (Raise e, w')) ∧
  (∀ id w o e l' w',
     dynamic_mixes (db w) !! id = Some o →
     dynamic_mix_try settings ext id (dynamic_mix_started id o w) = (Raise e, (l', w')) →
     isinstance e Exception = false →
     create_dynamic_mix settings ext id w = (Raise e, w')) ∧
  (∀ sid fid artist title link w sf ft e l' w',
     source_files (db w) !! sid = Some sf →
     yt_tasks (db w) !! fid = Some ft →
     fetch_try settings ext sid fid artist title link
       (fetch_started fid (mkFetchLocals ft sf) w) = (Raise e, (l', w')) →
     isinstance e Exception = false →
     fetch_youtube_audio settings ext sid fid artist title link w = (Raise e, w')).
Proof.
  split; [|split].
  - intros id w o e l' w' Hrow Hbody Hbase.
    rewrite (create_static_mix_run _ _ _ _ _ Hrow). unfold run.
    rewrite (static_mix_run_raise _ _ _ _ _ _ _ Hbody).
    by rewrite (static_mix_except_base _ _ Hbase).
  - intros id w o e l' w' Hrow Hbody Hbase.
    rewrite (create_dynamic_mix_run _ _ _ _ _ Hrow). unfold run.
    rewrite (dynamic_mix_run_raise _ _ _ _ _ _ _ Hbody).
    by rewrite (dynamic_mix_except_base _ _ Hbase).
  - intros sid fid artist title link w sf ft e l' w' Hs Hf Hbody Hbase.
    rewrite (fetch_youtube_audio_run _ _ _ _ _ _ _ _ _ _ Hs Hf). unfold run.
    rewrite (fetch_run_raise _ _ _ _ _ _ _ _ _ _ _ Hbody).
    by rewrite (fetch_except_base _ _ Hbase).
Qed.

(** The three handlers with components that raise [KeyboardInterrupt]: the
    exception comes out and the rows stay in progress. *)
Lemma exception_outside_exception_propagates_witness :
  let e := mkExn KeyboardInterrupt "" in
  let ext := Demo.raising_ext e in
  let rs := create_static_mix Demo.local_settings ext "1" Demo.world in
  let rd := create_dynamic_mix Demo.local_settings ext "2" Demo.world in
  let rf := fetch_youtube_audio Demo.local_settings ext "9" "7" "a" "t" "l"
              Demo.world in
  (rs.1 = Raise e ∧ sm_status <$> static_mixes (db rs.2) !! "1" = Some IN_PROGRESS) ∧
  (rd.1 = Raise e ∧ dm_status <$> dynamic_mixes (db rd.2) !! "2" = Some IN_PROGRESS) ∧
  (rf.1 = Raise e ∧ yt_status <$> yt_tasks (db rf.2) !! "7" = Some IN_PROGRESS).
Proof.
  intros e ext rs rd rf. subst rs rd rf.
  destruct (exception_outside_exception_propagates Demo.local_settings ext)
    as (Hs & Hd & Hf).
  split; [|split].
  - pose (s := static_mix_try Demo.local_settings ext "1"
                 (static_mix_started "1" Demo.static_mix_1 Demo.world)).
    rewrite (Hs "1" Demo.world Demo.static_mix_1 e s.2.1 s.2.2);
      [split|..]; vm_compute; reflexivity.
  - pose (s := dynamic_mix_try Demo.local_settings ext "2"
                 (dynamic_mix_started "2" Demo.dynamic_mix_2 Demo.world)).
    rewrite (Hd "2" Demo.world Demo.dynamic_mix_2 e s.2.1 s.2.2);
      [split|..]; vm_compute; reflexivity.
  - pose (s := fetch_try Demo.local_settings ext "9" "7" "a" "t" "l"
                 (fetch_started "7"
                    (mkFetchLocals (mkYTAudioDownloadTask QUEUED "")
                       (mkSourceFile Demo.no_file)) Demo.world)).
    rewrite (Hf "9" "7" "a" "t" "l" Demo.world (mkSourceFile Demo.no_file)
               (mkYTAudioDownloadTask QUEUED "") e s.2.1 s.2.2);
      [split|..]; vm_compute; reflexivity.
Defined.
Lemma static_mix_except_output id e l w :
  ordinary e = true →
  match select_clause (static_mix_except id) e with
  | Some h => h (l, w)
  | None => (Raise e, (l, w))
  end =
  (Ok tt,
   (sm_set_error (exn_str e) (sm_set_status ERROR l),
    mkWorld
      (put_static_mix id (sm_set_error (exn_str e) (sm_set_status ERROR l)) (db w))
      (fs w)
      (stdout w ++ exn_str e ::
         (if isinstance e FileNotFoundError
          then ["Please make sure you have FFmpeg and FFprobe installed."] else []))
      (trace w ++ [EvSetStatus TStaticMix id ERROR;
                   EvSave TStaticMix id (Some ERROR)]))).
Proof.
  intros Hord. destruct e as [c msg].
  destruct c; try (cbv in Hord; discriminate Hord);
    cbn; unfold with_db, log, with_stdout; cbn; by rewrite <- !app_assoc.
Qed.

Lemma dynamic_mix_except_output id e l w :
  ordinary e = true →
  match select_clause (dynamic_mix_except id) e with
  | Some h => h (l, w)
  | None => (Raise e, (l, w))
  end =
  (Ok tt,
   (dm_set_error (exn_str e) (dm_set_status ERROR l),
    mkWorld
      (put_dynamic_mix id (dm_set_error (exn_str e) (dm_set_status ERROR l)) (db w))
      (fs w)
      (stdout w ++ exn_str e ::
         (if isinstance e FileNotFoundError
          then ["Please make sure you have FFmpeg and FFprobe installed."] else []))
      (trace w ++ [EvSetStatus TDynamicMix id ERROR;
                   EvSave TDynamicMix id (Some ERROR)]))).
Proof.
  intros Hord. destruct e as [c msg].
  destruct c; try (cbv in Hord; discriminate Hord);
    cbn; unfold with_db, log, with_stdout; cbn; by rewrite <- !app_assoc.
Qed.

Lemma fetch_except_output id e l w :
  ordinary e = true →
  match select_clause (fetch_except id) e with
  | Some h => h (l, w)
  | None => (Raise e, (l, w))
  end =
  (Raise e,
   (set_fetch_task (yt_set_error (exn_str e)) (set_fetch_task (yt_set_status ERROR) l),
    mkWorld
      (put_yt_task id (yt_set_error (exn_str e) (yt_set_status ERROR (fetch_task l)))
         (db w))
      (fs w) (stdout w ++ [exn_str e])
      (trace w ++ [EvSetStatus TYTAudioDownloadTask id ERROR;
                   EvSave TYTAudioDownloadTask id (Some ERROR)]))).
Proof.
  intros Hord. destruct e as [c msg].
  destruct c; try (cbv in Hord; discriminate Hord);
    cbn; unfold with_db, log, with_stdout; cbn; by rewrite <- !app_assoc.
Qed.

(** X6.  What a recorded failure prints.  [create_static_mix] and
    [create_dynamic_mix] print the exception and, when it is a
    [FileNotFoundError], the hint to install FFmpeg and FFprobe after it;
    [fetch_youtube_audio] has no clause for [FileNotFoundError] and prints the
    exception only, whatever its class.  Nothing else is printed by the
    [except] clauses, and the file system is as the [try] statement left
    it. *)
Theorem failure_is_printed settings ext :
  (∀ id w o e l' w',
     static_mixes (db w) !! id = Some o →
     static_mix_try settings ext id (static_mix_started id o w) = (Raise e, (l', w')) →
     ordinary e = true →
     let r := create_static_mix settings ext id w in
     stdout r.2 = stdout w' ++ exn_str e ::
       (if isinstance e FileNotFoundError
        then ["Please make sure you have FFmpeg and FFprobe installed."] else []) ∧
     fs r.2 = fs w') ∧
  (∀ id w o e l' w',
     dynamic_mixes (db w) !! id = Some o →
     dynamic_mix_try settings ext id (dynamic_mix_started id o w) = (Raise e, (l', w')) →
     ordinary e = true →
     let r := create_dynamic_mix settings ext id w in
     stdout r.2 = stdout w' ++ exn_str e ::
       (if isinstance e FileNotFoundError
        then ["Please make sure you have FFmpeg and FFprobe installed."] else []) ∧
     fs r.2 = fs w') ∧
  (∀ sid fid artist title link w sf ft e l' w',
     source_files (db w) !! sid = Some sf →
     yt_tasks (db w) !! fid = Some ft →
     fetch_try settings ext sid fid artist title link
       (fetch_started fid (mkFetchLocals ft sf) w) = (Raise e, (l', w')) →
     ordinary e = true →
     let r := fetch_youtube_audio settings ext sid fid artist title link w in
     stdout r.2 = stdout w' ++ [exn_str e] ∧ fs r.2 = fs w').
Proof.
  split; [|split].
  - intros id w o e l' w' Hrow Hbody Hord r. subst r.
    rewrite (create_static_mix_run _ _ _ _ _ Hrow). unfold run.
    rewrite (static_mix_run_raise _ _ _ _ _ _ _ Hbody).
    by rewrite (static_mix_except_output _ _ _ _ Hord).
  - intros id w o e l' w' Hrow Hbody Hord r. subst r.
    rewrite (create_dynamic_mix_run _ _ _ _ _ Hrow). unfold run.
    rewrite (dynamic_mix_run_raise _ _ _ _ _ _ _ Hbody).
    by rewrite (dynamic_mix_except_output _ _ _ _ Hord).
  - intros sid fid artist title link w sf ft e l' w' Hs Hf Hbody Hord r. subst r.
    rewrite (fetch_youtube_audio_run _ _ _ _ _ _ _ _ _ _ Hs Hf). unfold run.
    rewrite (fetch_run_raise _ _ _ _ _ _ _ _ _ _ _ Hbody).
    by rewrite (fetch_except_output _ _ _ _ Hord).
Qed.

(** With FFmpeg missing, the separators raise [FileNotFoundError]: the mix
    handlers print the error and the hint, the download prints the error. *)
Lemma failure_is_printed_witness :
  let e := Demo.ffmpeg_missing in
  let ext := Demo.raising_ext e in
  let hint := "Please make sure you have FFmpeg and FFprobe installed." in
  stdout (create_static_mix Demo.local_settings ext "1" Demo.world).2
    = [exn_str e; hint] ∧
  stdout (create_dynamic_mix Demo.local_settings ext "2" Demo.world).2
    = [exn_str e; hint] ∧
  stdout (fetch_youtube_audio Demo.local_settings ext "9" "7" "a" "t" "l"
            Demo.world).2 = [exn_str e].
Proof.
  intros e ext hint.
  destruct (failure_is_printed Demo.local_settings ext) as (Hs & Hd & Hf).
  split; [|split].
  - pose (s := static_mix_try Demo.local_settings ext "1"
                 (static_mix_started "1" Demo.static_mix_1 Demo.world)).
    destruct (Hs "1" Demo.world Demo.static_mix_1 e s.2.1 s.2.2) as [-> _];
      vm_compute; reflexivity.
  - pose (s := dynamic_mix_try Demo.local_settings ext "2"
                 (dynamic_mix_started "2" Demo.dynamic_mix_2 Demo.world)).
    destruct (Hd "2" Demo.world Demo.dynamic_mix_2 e s.2.1 s.2.2) as [-> _];
      vm_compute; reflexivity.
  - pose (s := fetch_try Demo.local_settings ext "9" "7" "a" "t" "l"
                 (fetch_started "7"
                    (mkFetchLocals (mkYTAudioDownloadTask QUEUED "")
                       (mkSourceFile Demo.no_file)) Demo.world)).
    destruct (Hf "9" "7" "a" "t" "l" Demo.world (mkSourceFile Demo.no_file)
                (mkYTAudioDownloadTask QUEUED "") e s.2.1 s.2.2) as [-> _];
      vm_compute; reflexivity.
Defined.
(** X7.  [create_static_mix] and [create_dynamic_mix] return normally
    whatever goes wrong with the job: the only exceptions that leave them
    are those that are not instances of [Exception]. *)
Theorem mix_handlers_return_normally settings ext :
  (∀ id w o,
     static_mixes (db w) !! id = Some o →
     let r := create_static_mix settings ext id w in
     r.1 = Ok tt ∨ ∃ e, r.1 = Raise e ∧ isinstance e Exception = false) ∧
  (∀ id w o,
     dynamic_mixes (db w) !! id = Some o →
     let r := create_dynamic_mix settings ext id w in
     r.1 = Ok tt ∨ ∃ e, r.1 = Raise e ∧ isinstance e Exception = false).
Proof.
  split.
  - intros id w o Hrow r. subst r.
    rewrite (create_static_mix_run _ _ _ _ _ Hrow).
    wp_start. unfold static_mix_run, static_mix_mark, static_mix_try.
    wp_run; wp_handlers.
    all: first [by left | right; by eexists].
  - intros id w o Hrow r. subst r.
    rewrite (create_dynamic_mix_run _ _ _ _ _ Hrow).
    wp_start. unfold dynamic_mix_run, dynamic_mix_mark, dynamic_mix_try.
    wp_run; wp_handlers.
    all: first [by left | right; by eexists].
Qed.

(** A run in which writing the output fails and a run without FFmpeg both
    return normally. *)
Lemma mix_handlers_return_normally_witness :
  (create_static_mix Demo.local_settings Demo.nothing_ext "1" Demo.world).1 = Ok tt ∧
  (create_dynamic_mix Demo.local_settings (Demo.raising_ext Demo.ffmpeg_missing) "2"
     Demo.world).1 = Ok tt.
Proof.
  split.
  - destruct (mix_handlers_return_normally Demo.local_settings Demo.nothing_ext)
      as [Hs _].
    destruct (Hs "1" Demo.world Demo.static_mix_1 eq_refl) as [H|(e & H & He)];
      [exact H|].
    exfalso. vm_compute in H. discriminate H.
  - destruct (mix_handlers_return_normally Demo.local_settings
                (Demo.raising_ext Demo.ffmpeg_missing)) as [_ Hd].
    destruct (Hd "2" Demo.world Demo.dynamic_mix_2 eq_refl) as [H|(e & H & He)];
      [exact H|].
    exfalso. vm_compute in H. discriminate H.
Defined.
(** Close a goal on every event of a list that is written out. *)
Ltac forall_events := repeat (first [apply Forall_nil_2 | apply Forall_cons_2; [done|]]).

(** X8.  With the local file system as the storage backend no handler
    reads the output back or removes anything: a run makes no call to
    [open], [os.remove], [os.rmdir] or [shutil.rmtree], whatever the
    separator or the downloader does and however the run ends; and only
    [create_dynamic_mix] renames files. *)
Theorem local_backend_removes_nothing settings ext :
  is_local settings = true →
  (∀ id w,
     let r := create_static_mix settings ext id w in
     Forall (λ ev, reads_or_removes ev = false ∧ is_rename ev = false)
       (events_since w r.2)) ∧
  (∀ id w,
     let r := create_dynamic_mix settings ext id w in
     Forall (λ ev, reads_or_removes ev = false) (events_since w r.2)) ∧
  (∀ sid fid artist title link w,
     let r := fetch_youtube_audio settings ext sid fid artist title link w in
     Forall (λ ev, reads_or_removes ev = false ∧ is_rename ev = false)
       (events_since w r.2)).
Proof.
  intros Hloc. split; [|split].
  - intros id w r. subst r.
    destruct (static_mixes (db w) !! id) as [o|] eqn:Hrow.
    + rewrite (create_static_mix_run _ _ _ _ _ Hrow).
      wp_start. unfold static_mix_run, static_mix_mark, static_mix_try.
      wp_run; wp_handlers; try congruence; world_simpl; forall_events.
    + unfold create_static_mix, objects_get. rewrite Hrow. cbn.
      unfold events_since. cbn. rewrite drop_all. constructor.
  - intros id w r. subst r.
    destruct (dynamic_mixes (db w) !! id) as [o|] eqn:Hrow.
    + rewrite (create_dynamic_mix_run _ _ _ _ _ Hrow).
      wp_start. unfold dynamic_mix_run, dynamic_mix_mark, dynamic_mix_try.
      wp_run; wp_handlers; try congruence; world_simpl; forall_events.
    + unfold create_dynamic_mix, objects_get. rewrite Hrow. cbn.
      unfold events_since. cbn. rewrite drop_all. constructor.
  - intros sid fid artist title link w r. subst r.
    destruct (source_files (db w) !! sid) as [sf|] eqn:Hs.
    + destruct (yt_tasks (db w) !! fid) as [ft|] eqn:Hf.
      * rewrite (fetch_youtube_audio_run _ _ _ _ _ _ _ _ _ _ Hs Hf).
        wp_start. unfold fetch_run, fetch_mark, fetch_try.
        wp_run; wp_handlers; try congruence; world_simpl; forall_events.
      * unfold fetch_youtube_audio, objects_get. rewrite Hs, Hf. cbn.
        unfold events_since. rewrite drop_all. constructor.
    + unfold fetch_youtube_audio, objects_get. rewrite Hs. cbn.
      unfold events_since. cbn. rewrite drop_all. constructor.
Qed.

Lemma local_backend_removes_nothing_witness :
  events_since Demo.world
    (create_dynamic_mix Demo.local_settings Demo.ok_ext "2" Demo.world).2
  ≠ [] ∧
  Forall (λ ev, reads_or_removes ev = false)
    (events_since Demo.world
       (create_dynamic_mix Demo.local_settings Demo.ok_ext "2" Demo.world).2).
Proof.
  split; [by vm_compute|].
  destruct (local_backend_removes_nothing Demo.local_settings Demo.ok_ext eq_refl)
    as (_ & Hd & _).
  apply (Hd "2" Demo.world).
Defined.











Lemma wp_mkdir_parents_file {L} p c (Q : Result unit → L → World → Prop) l w :
  fs w !! p = Some (File c) →
  Q (Raise (eexist p)) l (log (EvMkdir p) w) →
  wp (mkdir_parents p) Q l w.
Proof.
  intros Hp HQ. unfold wp, mkdir_parents, bind, emit, get_world, modify_world.
  simpl. by rewrite Hp.
Qed.

(** [FileExistsError] is an ordinary exception. *)
Ltac eexist_absurd :=
  match goal with
  | H : isinstance (eexist _) _ = _ |- _ =>
      by cbv [isinstance eexist exn_class issubclass class_eqb bases existsb orb] in H
  end.

(** Run up to the call of [mkdir]. *)
Ltac wp_to_mkdir :=
  repeat lazymatch goal with
         | |- wp (mkdir_parents _) _ _ _ => fail
         | |- _ => wp_step
         end.

(** X11.  When the path of the per-job directory is taken by a regular
    file, [mkdir] raises [FileExistsError] inside the [try] statement: the
    separator or the downloader is never called, the file system is left as
    it was, and the failure is recorded on the job row with the message of
    the error; [fetch_youtube_audio] raises it again. *)
Theorem occupied_job_directory_is_an_error settings ext :
  (∀ id w o c,
     static_mixes (db w) !! id = Some o →
     fs w !! separate_dir settings id = Some (File c) →
     let r := create_static_mix settings ext id w in
     let e := eexist (separate_dir settings id) in
     r.1 = Ok tt ∧ fs r.2 = fs w ∧
     static_mixes (db r.2) !! id
       = Some (sm_set_error (exn_str e) (sm_set_status ERROR o)) ∧
     events_since w r.2 =
       [EvSetStatus TStaticMix id IN_PROGRESS;
        EvSave TStaticMix id (Some IN_PROGRESS);
        EvMkdir (separate_dir settings id);
        EvSetStatus TStaticMix id ERROR;
        EvSave TStaticMix id (Some ERROR)]) ∧
  (∀ id w o c,
     dynamic_mixes (db w) !! id = Some o →
     fs w !! separate_dir settings id = Some (File c) →
     let r := create_dynamic_mix settings ext id w in
     let e := eexist (separate_dir settings id) in
     r.1 = Ok tt ∧ fs r.2 = fs w ∧
     dynamic_mixes (db r.2) !! id
       = Some (dm_set_error (exn_str e) (dm_set_status ERROR o)) ∧
     events_since w r.2 =
       [EvSetStatus TDynamicMix id IN_PROGRESS;
        EvSave TDynamicMix id (Some IN_PROGRESS);
        EvMkdir (separate_dir settings id);
        EvSetStatus TDynamicMix id ERROR;
        EvSave TDynamicMix id (Some ERROR)]) ∧
  (∀ sid fid artist title link w sf ft c,
     source_files (db w) !! sid = Some sf →
     yt_tasks (db w) !! fid = Some ft →
     fs w !! upload_dir settings sid = Some (File c) →
     let r := fetch_youtube_audio settings ext sid fid artist title link w in
     let e := eexist (upload_dir settings sid) in
     r.1 = Raise e ∧ fs r.2 = fs w ∧
     yt_tasks (db r.2) !! fid
       = Some (yt_set_error (exn_str e) (yt_set_status ERROR ft)) ∧
     source_files (db r.2) = source_files (db w) ∧
     events_since w r.2 =
       [EvSetStatus TYTAudioDownloadTask fid IN_PROGRESS;
        EvSave TYTAudioDownloadTask fid (Some IN_PROGRESS);
        EvMkdir (upload_dir settings sid);
        EvSetStatus TYTAudioDownloadTask fid ERROR;
        EvSave TYTAudioDownloadTask fid (Some ERROR)]).
Proof.
  split; [|split].
  - intros id w o c Hrow Hdir r e. subst r e.
    rewrite (create_static_mix_run _ _ _ _ _ Hrow). unfold separate_dir in *.
    wp_start. unfold static_mix_run, static_mix_mark, static_mix_try.
    wp_to_mkdir. apply (wp_mkdir_parents_file _ c); [exact Hdir|].
    wp_handlers; [|eexist_absurd..]. world_simpl.
    split; [done|]. split; [done|]. split; [|done].
    rewrite lookup_insert_eq. by destruct o.
  - intros id w o c Hrow Hdir r e. subst r e.
    rewrite (create_dynamic_mix_run _ _ _ _ _ Hrow). unfold separate_dir in *.
    wp_start. unfold dynamic_mix_run, dynamic_mix_mark, dynamic_mix_try.
    wp_to_mkdir. apply (wp_mkdir_parents_file _ c); [exact Hdir|].
    wp_handlers; [|eexist_absurd..]. world_simpl.
    split; [done|]. split; [done|]. split; [|done].
    rewrite lookup_insert_eq. by destruct o.
  - intros sid fid artist title link w sf ft c Hs Hf Hdir r e. subst r e.
    rewrite (fetch_youtube_audio_run _ _ _ _ _ _ _ _ _ _ Hs Hf).
    unfold upload_dir in *.
    wp_start. unfold fetch_run, fetch_mark, fetch_try.
    wp_to_mkdir. apply (wp_mkdir_parents_file _ c); [exact Hdir|].
    wp_handlers; [|eexist_absurd..]. world_simpl.
    split; [done|]. split; [done|]. split; [|done].
    rewrite lookup_insert_eq. by destruct ft.
Qed.

(** A file named like the directory of job "1" blocks the static mix. *)
Lemma occupied_job_directory_is_an_error_witness :
  let w := mkWorld Demo.database {[ "/media/separate/1" := File "x" ]} [] [] in
  let r := create_static_mix Demo.local_settings Demo.ok_ext "1" w in
  r.1 = Ok tt ∧
  (sm_status <$> static_mixes (db r.2) !! "1" = Some ERROR ∧
   sm_error <$> static_mixes (db r.2) !! "1"
     = Some "[Errno 17] File exists: '/media/separate/1'").
Proof.
  intros w r.
  destruct (occupied_job_directory_is_an_error Demo.local_settings Demo.ok_ext)
    as (Hs & _ & _).
  destruct (Hs "1" w Demo.static_mix_1 "x" eq_refl eq_refl) as (H1 & _ & H3 & _).
  split; [exact H1|]. fold r in H3. rewrite H3. split; reflexivity.
Defined.
(** X12.  [save_to_ext_storage] reads the four renamed parts before it
    assigns anything: when one of them cannot be read it raises the
    [OSError] of [open] and has touched neither the instance, nor the
    database, nor the file system.  When it returns, the four parts were
    regular files, the instance carries their bytes under the bare prefixed
    names and has been saved, and the directory is gone with all below it. *)
Theorem save_to_ext_storage_reads_before_assigning
    id rel_path_dir file_prefix (l : DynamicMix) w :
  let r := save_to_ext_storage id rel_path_dir file_prefix (l, w) in
  match r.1 with
  | Ok _ =>
      ∃ cv co cb cd,
        (fs w !! prefixed_path rel_path_dir file_prefix "vocals" = Some (File cv) ∧
         fs w !! prefixed_path rel_path_dir file_prefix "other" = Some (File co) ∧
         fs w !! prefixed_path rel_path_dir file_prefix "bass" = Some (File cb) ∧
         fs w !! prefixed_path rel_path_dir file_prefix "drums" = Some (File cd)) ∧
        r.2.1 =
          dm_set_drums_file (ContentFile cd (prefixed_name file_prefix "drums"))
            (dm_set_bass_file (ContentFile cb (prefixed_name file_prefix "bass"))
               (dm_set_other_file (ContentFile co (prefixed_name file_prefix "other"))
                  (dm_set_vocals_file
                     (ContentFile cv (prefixed_name file_prefix "vocals")) l))) ∧
        dynamic_mixes (db r.2.2) !! id = Some r.2.1 ∧
        fs r.2.2 = filter (λ kv, kv.1 ≠ rel_path_dir ∧ under rel_path_dir kv.1 = false)
                     (fs w)
  | Raise e =>
      isinstance e OSError = true ∧
      r.2.1 = l ∧ db r.2.2 = db w ∧ fs r.2.2 = fs w ∧
      Forall (λ ev, ∃ p, ev = EvRead p) (events_since w r.2.2)
  end.
Proof.
  intros r. subst r.
  change (wp (save_to_ext_storage id rel_path_dir file_prefix)
            (λ r l' w',
               match r with
               | Ok _ =>
                   ∃ cv co cb cd,
                     (fs w !! prefixed_path rel_path_dir file_prefix "vocals"
                        = Some (File cv) ∧
                      fs w !! prefixed_path rel_path_dir file_prefix "other"
                        = Some (File co) ∧
                      fs w !! prefixed_path rel_path_dir file_prefix "bass"
                        = Some (File cb) ∧
                      fs w !! prefixed_path rel_path_dir file_prefix "drums"
                        = Some (File cd)) ∧
                     l' = dm_set_drums_file
                            (ContentFile cd (prefixed_name file_prefix "drums"))
                            (dm_set_bass_file
                               (ContentFile cb (prefixed_name file_prefix "bass"))
                               (dm_set_other_file
                                  (ContentFile co (prefixed_name file_prefix "other"))
                                  (dm_set_vocals_file
                                     (ContentFile cv (prefixed_name file_prefix "vocals"))
                                     l))) ∧
                     dynamic_mixes (db w') !! id = Some l' ∧
                     fs w' = filter (λ kv, kv.1 ≠ rel_path_dir
                                           ∧ under rel_path_dir kv.1 = false) (fs w)
               | Raise e =>
                   isinstance e OSError = true ∧
                   l' = l ∧ db w' = db w ∧ fs w' = fs w ∧
                   Forall (λ ev, ∃ p, ev = EvRead p) (events_since w w')
               end) l w).
  unfold prefixed_path, prefixed_name.
  wp_step. wp_run; world_simpl.
  all: try (split; [assumption|]; split; [done|]; split; [done|]; split; [done|];
            repeat (first [apply Forall_nil_2 | apply Forall_cons_2; [by eexists|]])).
  eexists _, _, _, _. split; [repeat split; eassumption|].
  split; [reflexivity|]. split; [apply lookup_insert_eq|reflexivity].
Qed.

Lemma save_to_ext_storage_reads_before_assigning_witness :
  let f : gmap string Node :=
    {[ "/m/song-vocals.mp3" := File "v"; "/m/song-other.mp3" := File "o" ]} in
  let w := mkWorld Demo.database f [] [] in
  let r := save_to_ext_storage "2" "/m" "song" (Demo.dynamic_mix_2, w) in
  r.1 = Raise (enoent "/m/song-bass.mp3") ∧ r.2.1 = Demo.dynamic_mix_2 ∧
  db r.2.2 = Demo.database ∧ fs r.2.2 = f.
Proof.
  intros f w r.
  pose proof (save_to_ext_storage_reads_before_assigning "2" "/m" "song"
                Demo.dynamic_mix_2 w) as H.
  cbv zeta in H. fold r in H.
  assert (r.1 = Raise (enoent "/m/song-bass.mp3")) as Hr by (by vm_compute).
  rewrite Hr in H. destruct H as (_ & H1 & H2 & H3 & _).
  split; [exact Hr|]. split; [exact H1|]. split; [exact H2|exact H3].
Defined.
(** X13.  [fetch_youtube_audio] writes the [SourceFile] row only at the
    very end of a successful run: if the table of source files has changed,
    the handler returned normally and the download task is saved as [DONE].
    A failed, interrupted or stale run leaves every source file as it
    was. *)
Theorem source_file_is_written_on_success_only
    settings ext sid fid artist title link w :
  let r := fetch_youtube_audio settings ext sid fid artist title link w in
  source_files (db r.2) ≠ source_files (db w) →
  r.1 = Ok tt ∧ yt_status <$> yt_tasks (db r.2) !! fid = Some DONE.
Proof.
  intros r. subst r.
  destruct (source_files (db w) !! sid) as [sf|] eqn:Hs.
  - destruct (yt_tasks (db w) !! fid) as [ft|] eqn:Hf.
    + rewrite (fetch_youtube_audio_run _ _ _ _ _ _ _ _ _ _ Hs Hf).
      wp_start. unfold fetch_run, fetch_mark, fetch_try.
      wp_run; wp_handlers; world_simpl.
      all: intros Hne.
      all: first [ exfalso; apply Hne; reflexivity
                 | split; [done|by rewrite lookup_insert_eq] ].
    + unfold fetch_youtube_audio, objects_get. rewrite Hs, Hf. cbn. done.
  - unfold fetch_youtube_audio, objects_get. rewrite Hs. cbn. done.
Qed.

Lemma source_file_is_written_on_success_only_witness :
  let r := fetch_youtube_audio Demo.local_settings Demo.ok_ext "9" "7" "a" "t" "l"
             Demo.world in
  r.1 = Ok tt ∧ yt_status <$> yt_tasks (db r.2) !! "7" = Some DONE.
Proof.
  intros r.
  apply (source_file_is_written_on_success_only Demo.local_settings Demo.ok_ext
           "9" "7" "a" "t" "l" Demo.world).
  intros H. apply (f_equal (λ t, ff_name <$> (sf_file <$> t !! "9"))) in H.
  vm_compute in H. discriminate H.
Defined.
(** X14.  Which of [source_path()] and [source_url()] a mix handler asks
    the model for is decided by the storage backend alone: with the local
    file system [source_url] is never used, with any other backend
    [source_path] is never used, so replacing the unused method by any other
    changes nothing in the outcome of a run. *)
Theorem source_location_follows_backend settings ext
    (static_other : StaticMix → string) (dynamic_other : DynamicMix → string) :
  let with_path :=
    mkExternals (slugify ext) (slugify_unicode ext) (get_file_ext ext)
      (download_audio ext) (separator_create_static_mix ext)
      (separator_separate_into_parts ext)
      (static_formatted_name ext) static_other (static_source_url ext)
      (dynamic_formatted_name ext) dynamic_other (dynamic_source_url ext) in
  let with_url :=
    mkExternals (slugify ext) (slugify_unicode ext) (get_file_ext ext)
      (download_audio ext) (separator_create_static_mix ext)
      (separator_separate_into_parts ext)
      (static_formatted_name ext) (static_source_path ext) static_other
      (dynamic_formatted_name ext) (dynamic_source_path ext) dynamic_other in
  (is_local settings = true →
   ∀ id w,
     create_static_mix settings with_url id w = create_static_mix settings ext id w ∧
     create_dynamic_mix settings with_url id w = create_dynamic_mix settings ext id w) ∧
  (is_local settings = false →
   ∀ id w,
     create_static_mix settings with_path id w = create_static_mix settings ext id w ∧
     create_dynamic_mix settings with_path id w = create_dynamic_mix settings ext id w).
Proof.
  intros with_path with_url. subst with_path with_url.
  split; intros Hloc id w; split.
  all: unfold create_static_mix, create_dynamic_mix, static_mix_run, dynamic_mix_run,
         static_mix_try, dynamic_mix_try; rewrite Hloc; reflexivity.
Qed.

Lemma source_location_follows_backend_witness :
  let ext' :=
    mkExternals (slugify Demo.ok_ext) (slugify_unicode Demo.ok_ext)
      (get_file_ext Demo.ok_ext) (download_audio Demo.ok_ext)
      (separator_create_static_mix Demo.ok_ext)
      (separator_separate_into_parts Demo.ok_ext)
      (static_formatted_name Demo.ok_ext) (static_source_path Demo.ok_ext)
      (λ _, "no url")
      (dynamic_formatted_name Demo.ok_ext) (dynamic_source_path Demo.ok_ext)
      (λ _, "no url") in
  create_static_mix Demo.local_settings ext' "1" Demo.world
  = create_static_mix Demo.local_settings Demo.ok_ext "1" Demo.world.
Proof.
  intros ext'.
  destruct (source_location_follows_backend Demo.local_settings Demo.ok_ext
              (λ _, "no url") (λ _, "no url")) as [Hlocal _].
  apply (Hlocal eq_refl "1" Demo.world).
Defined.
(** Rules for calls whose outcome the file system decides. *)
Lemma wp_mkdir_parents_dir {L} p (Q : Result unit → L → World → Prop) l w :
  fs w !! p = Some Dir →
  Q (Ok tt) l (log (EvMkdir p) w) →
  wp (mkdir_parents p) Q l w.
Proof.
  intros Hp HQ. unfold wp, mkdir_parents, bind, emit, get_world, modify_world.
  simpl. by rewrite Hp.
Qed.

Lemma wp_call_external_result {L} ev f r f' (Q : Result unit → L → World → Prop) l w :
  f (fs w) = (r, f') →
  Q r l (with_fs f' (log ev w)) →
  wp (call_external ev f) Q l w.
Proof. intros Hf HQ. unfold wp, call_external. simpl. by rewrite Hf. Qed.

Lemma wp_os_path_exists_found {L} p x (Q : Result bool → L → World → Prop) l w :
  fs w !! p = Some x →
  Q (Ok true) l (log (EvExists p true) w) →
  wp (os_path_exists p) Q l w.
Proof.
  intros Hp HQ. apply wp_os_path_exists.
  by rewrite bool_decide_eq_true_2 by (by rewrite Hp).
Qed.

Lemma wp_open_read_file {L} p c (Q : Result string → L → World → Prop) l w :
  fs w !! p = Some (File c) →
  Q (Ok c) l (log (EvRead p) w) →
  wp (open_read p) Q l w.
Proof.
  intros Hp HQ. unfold wp, open_read, bind, emit, get_world, modify_world.
  simpl. by rewrite Hp.
Qed.

Lemma wp_os_remove_file {L} p c (Q : Result unit → L → World → Prop) l w :
  fs w !! p = Some (File c) →
  Q (Ok tt) l (with_fs (delete p (fs w)) (log (EvRemove p) w)) →
  wp (os_remove p) Q l w.
Proof.
  intros Hp HQ. unfold wp, os_remove, bind, emit, get_world, modify_world.
  simpl. by rewrite Hp.
Qed.

Lemma wp_os_rmdir_not_empty {L} p (Q : Result unit → L → World → Prop) l w :
  fs w !! p = Some Dir →
  has_children p (fs w) = true →
  Q (Raise (enotempty p)) l (log (EvRmdir p) w) →
  wp (os_rmdir p) Q l w.
Proof.
  intros Hp Hc HQ. unfold wp, os_rmdir, bind, emit, get_world, modify_world.
  simpl. by rewrite Hp, Hc.
Qed.

Ltac enotempty_absurd :=
  match goal with
  | H : isinstance (enotempty _) _ = _ |- _ =>
      by cbv [isinstance enotempty exn_class issubclass class_eqb bases existsb orb] in H
  end.

(** A side condition on the file system of the current world. *)
Ltac fs_now := cbn [db fs stdout trace with_db with_fs with_stdout log].

Ltac wp_next := cbv beta iota zeta; fs_now.

(** Run up to the next call to the file system or to a component. *)
Ltac wp_to_call :=
  repeat lazymatch goal with
         | |- wp (mkdir_parents _) _ _ _ => fail
         | |- wp (call_external _ _) _ _ _ => fail
         | |- wp (os_path_exists _) _ _ _ => fail
         | |- wp (open_read _) _ _ _ => fail
         | |- wp (os_remove _) _ _ _ => fail
         | |- wp (os_rmdir _) _ _ _ => fail
         | |- _ => wp_step
         end.

Lemma static_mix_stray_entry settings ext id w o f' c :
  static_mixes (db w) !! id = Some o →
  is_local settings = false →
  let m := sm_set_status IN_PROGRESS o in
  let dir := separate_dir settings id in
  let p := static_mix_rel_path settings ext id m in
  fs w !! dir = Some Dir →
  separator_create_static_mix ext
    (get_separator (sm_separator o) (sm_random_shifts o))
    (<["other" := sm_other o]> (<["bass" := sm_bass o]>
       (<["drums" := sm_drums o]> (<["vocals" := sm_vocals o]> ∅))))
    (static_source_url ext m) p (fs w) = (Ok tt, f') →
  f' !! p = Some (File c) →
  f' !! dir = Some Dir →
  has_children dir (delete p f') = true →
  let r := create_static_mix settings ext id w in
  r.1 = Ok tt ∧
  static_mixes (db r.2) !! id
    = Some (sm_set_error (exn_str (enotempty dir))
              (sm_set_file (ContentFile c (static_mix_filename ext m))
                 (sm_set_status ERROR o))) ∧
  fs r.2 = delete p f' ∧
  assigned_statuses (events_since w r.2) = [IN_PROGRESS; DONE; ERROR] ∧
  saved_statuses (events_since w r.2) = [IN_PROGRESS; ERROR].
Proof.
  intros Hrow Hloc m dir p Hdir Hsep Hp Hd Hch r. subst m dir p r.
  assert (separate_dir settings id
          ≠ static_mix_rel_path settings ext id (sm_set_status IN_PROGRESS o)) as Hne.
  { intros E. rewrite E in Hd. congruence. }
  rewrite (create_static_mix_run _ _ _ _ _ Hrow).
  unfold static_mix_rel_path, static_mix_rel_media_path, static_mix_filename,
    separate_dir in *.
  wp_start. unfold static_mix_run, static_mix_mark, static_mix_try.
  rewrite Hloc.
  wp_to_call. apply wp_mkdir_parents_dir; [fs_now; exact Hdir|wp_next].
  wp_to_call. eapply wp_call_external_result; [fs_now; destruct o; exact Hsep|wp_next].
  wp_to_call. eapply wp_os_path_exists_found; [fs_now; exact Hp|wp_next].
  wp_to_call. eapply wp_open_read_file; [fs_now; exact Hp|wp_next].
  wp_to_call. eapply wp_os_remove_file; [fs_now; exact Hp|wp_next].
  wp_to_call. eapply wp_os_rmdir_not_empty;
    [fs_now; by rewrite lookup_delete_ne|fs_now; exact Hch|wp_next].
  wp_handlers; [|enotempty_absurd..]. world_simpl.
  split; [done|]. split; [|done].
  rewrite lookup_insert_eq. by destruct o.
Qed.

Lemma fetch_stray_entry settings ext sid fid artist title link w sf ft f' c :
  source_files (db w) !! sid = Some sf →
  yt_tasks (db w) !! fid = Some ft →
  is_local settings = false →
  let dir := upload_dir settings sid in
  let p := fetch_rel_path settings ext sid artist title link in
  fs w !! dir = Some Dir →
  download_audio ext link p (fs w) = (Ok tt, f') →
  f' !! p = Some (File c) →
  f' !! dir = Some Dir →
  has_children dir (delete p f') = true →
  let r := fetch_youtube_audio settings ext sid fid artist title link w in
  r.1 = Raise (enotempty dir) ∧
  yt_tasks (db r.2) !! fid
    = Some (yt_set_error (exn_str (enotempty dir)) (yt_set_status ERROR ft)) ∧
  source_files (db r.2) = source_files (db w) ∧
  fs r.2 = delete p f' ∧
  assigned_statuses (events_since w r.2) = [IN_PROGRESS; DONE; ERROR] ∧
  saved_statuses (events_since w r.2) = [IN_PROGRESS; ERROR].
Proof.
  intros Hs Hf Hloc dir p Hdir Hdl Hp Hd Hch r. subst dir p r.
  assert (upload_dir settings sid
          ≠ fetch_rel_path settings ext sid artist title link) as Hne.
  { intros E. rewrite E in Hd. congruence. }
  rewrite (fetch_youtube_audio_run _ _ _ _ _ _ _ _ _ _ Hs Hf).
  unfold fetch_rel_path, fetch_rel_media_path, fetch_filename, upload_dir in *.
  wp_start. unfold fetch_run, fetch_mark, fetch_try.
  rewrite Hloc.
  wp_to_call. apply wp_mkdir_parents_dir; [fs_now; exact Hdir|wp_next].
  wp_to_call. eapply wp_call_external_result; [fs_now; exact Hdl|wp_next].
  wp_to_call. eapply wp_os_path_exists_found; [fs_now; exact Hp|wp_next].
  wp_to_call. eapply wp_open_read_file; [fs_now; exact Hp|wp_next].
  wp_to_call. eapply wp_os_remove_file; [fs_now; exact Hp|wp_next].
  wp_to_call. eapply wp_os_rmdir_not_empty;
    [fs_now; by rewrite lookup_delete_ne|fs_now; exact Hch|wp_next].
  wp_handlers; [|enotempty_absurd..]. world_simpl.
  split; [done|]. split; [|done].
  rewrite lookup_insert_eq. by destruct ft.
Qed.

(** X15.  With an object-storage backend [create_static_mix] and
    [fetch_youtube_audio] remove the per-job directory with [os.rmdir],
    which wants it empty.  When the directory is there already and holds
    anything besides the output once the separator or the downloader has
    returned, the run sets the status to [DONE], reads the output, removes
    it from the disk, fails on [os.rmdir] and records the failure: the job
    ends in [ERROR] with the message of the error, the output file is gone
    from the local disk, and [save()] is never reached with [DONE]. *)
Theorem stray_entry_fails_the_upload settings ext :
  is_local settings = false →
  (∀ id w o f' c,
     static_mixes (db w) !! id = Some o →
     let m := sm_set_status IN_PROGRESS o in
     let dir := separate_dir settings id in
     let p := static_mix_rel_path settings ext id m in
     fs w !! dir = Some Dir →
     separator_create_static_mix ext
       (get_separator (sm_separator o) (sm_random_shifts o))
       (<["other" := sm_other o]> (<["bass" := sm_bass o]>
          (<["drums" := sm_drums o]> (<["vocals" := sm_vocals o]> ∅))))
       (static_source_url ext m) p (fs w) = (Ok tt, f') →
     f' !! p = Some (File c) →
     f' !! dir = Some Dir →
     has_children dir (delete p f') = true →
     let r := create_static_mix settings ext id w in
     r.1 = Ok tt ∧
     (∃ row, static_mixes (db r.2) !! id = Some row ∧
        sm_status row = ERROR ∧ sm_error row = exn_str (enotempty dir)) ∧
     fs r.2 = delete p f' ∧
     assigned_statuses (events_since w r.2) = [IN_PROGRESS; DONE; ERROR] ∧
     saved_statuses (events_since w r.2) = [IN_PROGRESS; ERROR]) ∧
  (∀ sid fid artist title link w sf ft f' c,
     source_files (db w) !! sid = Some sf →
     yt_tasks (db w) !! fid = Some ft →
     let dir := upload_dir settings sid in
     let p := fetch_rel_path settings ext sid artist title link in
     fs w !! dir = Some Dir →
     download_audio ext link p (fs w) = (Ok tt, f') →
     f' !! p = Some (File c) →
     f' !! dir = Some Dir →
     has_children dir (delete p f') = true →
     let r := fetch_youtube_audio settings ext sid fid artist title link w in
     r.1 = Raise (enotempty dir) ∧
     (∃ row, yt_tasks (db r.2) !! fid = Some row ∧
        yt_status row = ERROR ∧ yt_error row = exn_str (enotempty dir)) ∧
     source_files (db r.2) = source_files (db w) ∧
     fs r.2 = delete p f' ∧
     assigned_statuses (events_since w r.2) = [IN_PROGRESS; DONE; ERROR] ∧
     saved_statuses (events_since w r.2) = [IN_PROGRESS; ERROR]).
Proof.
  intros Hloc. split.
  - intros id w o f' c Hrow m dir p Hdir Hsep Hp Hd Hch r.
    destruct (static_mix_stray_entry settings ext id w o f' c Hrow Hloc Hdir Hsep
                Hp Hd Hch) as (H1 & H2 & H3 & H4 & H5).
    split; [exact H1|]. split; [|by repeat split].
    eexists. split; [exact H2|]. by destruct o.
  - intros sid fid artist title link w sf ft f' c Hs Hf dir p Hdir Hdl Hp Hd Hch r.
    destruct (fetch_stray_entry settings ext sid fid artist title link w sf ft f' c
                Hs Hf Hloc Hdir Hdl Hp Hd Hch) as (H1 & H2 & H3 & H4 & H5 & H6).
    split; [exact H1|]. split; [|by repeat split].
    eexists. split; [exact H2|]. by destruct ft.
Qed.

(** A file left from an earlier attempt in the directory of job "1". *)
Lemma stray_entry_fails_the_upload_witness :
  let f0 : gmap string Node :=
    {[ "/media/separate/1" := Dir; "/media/separate/1/old.tmp" := File "x" ]} in
  let w := mkWorld Demo.database f0 [] [] in
  let r := create_static_mix Demo.s3_settings Demo.ok_ext "1" w in
  r.1 = Ok tt ∧
  fs r.2 = delete "/media/separate/1/song.mp3"
             (<["/media/separate/1/song.mp3" := File "mix"]> f0) ∧
  saved_statuses (events_since w r.2) = [IN_PROGRESS; ERROR].
Proof.
  intros f0 w r.
  destruct (stray_entry_fails_the_upload Demo.s3_settings Demo.ok_ext eq_refl)
    as [Hs _].
  destruct (Hs "1" w Demo.static_mix_1
              (<["/media/separate/1/song.mp3" := File "mix"]> f0) "mix")
    as (H1 & _ & H3 & _ & H5); [reflexivity..|].
  split; [exact H1|]. split; [exact H3|exact H5].
Defined.
